(** * Job trigger-and-monitor protocol of databricks-workspace-tools

    A shallow embedding of

    - [trigger_databricks_flow]  (src/trigger_flow_function.py, and the same
      body registered as a Unity Catalog function in
      src/register_uc_functions.py), and
    - [trigger_and_monitor_job]  (src/example_usage.py),

    together with the properties the specification states about them.

    Python values that the code decodes, inspects and re-encodes are JSON
    values ([json]).  Python exceptions are a type name and the text of
    [str(e)] ([exn]).  Effects (the SDK calls, the SQL calls of the notebook,
    [json.loads], [time.sleep]) run in a state-and-exception monad over a
    [world] that holds the state of the backend and the chronological trace of
    the effects performed so far.  The Python built-ins and the remote backend
    are the members of the class [Platform]; every theorem holds for every
    platform, and [mock_platform] is a scripted backend on which the
    definitions run. *)

From Stdlib Require Import ZArith List String Ascii Bool Lia DecimalString.
Import ListNotations.
Open Scope string_scope.
Open Scope Z_scope.
Set Warnings "-register-all".

(** ** Data *)

(** The values [json.loads] produces and [json.dumps] consumes.  Numbers are
    integers: the program never looks inside a fractional number. *)
Inductive json : Type :=
| JNull
| JBool (b : bool)
| JInt (z : Z)
| JStr (s : string)
| JList (items : list json)
| JDict (fields : list (string * json)).

(** [isinstance(v, dict)] and [isinstance(v, list)]. *)
Definition isinstance_dict (v : json) : bool :=
  match v with JDict _ => true | _ => false end.

Definition isinstance_list (v : json) : bool :=
  match v with JList _ => true | _ => false end.

(** [type(v).__name__]. *)
Definition py_type_name (v : json) : string :=
  match v with
  | JNull => "NoneType"
  | JBool _ => "bool"
  | JInt _ => "int"
  | JStr _ => "str"
  | JList _ => "list"
  | JDict _ => "dict"
  end.

(** Truth value of a Python object, as [if v:] tests it. *)
Definition truthy (v : json) : bool :=
  match v with
  | JNull => false
  | JBool b => b
  | JInt z => negb (z =? 0)
  | JStr s => negb (s =? EmptyString)%string
  | JList items => match items with [] => false | _ => true end
  | JDict fields => match fields with [] => false | _ => true end
  end.

(** Truth value of a [str]. *)
Definition truthy_str (s : string) : bool := negb (s =? EmptyString)%string.

(** An exception: [type(e).__name__] and [str(e)].  Only subclasses of
    [Exception] are modelled. *)
Record exn : Type := mkExn { exn_type : string; exn_str : string }.

Definition ValueError (msg : string) : exn := mkExn "ValueError" msg.
Definition JSONDecodeError (msg : string) : exn := mkExn "JSONDecodeError" msg.
Definition AttributeError (msg : string) : exn := mkExn "AttributeError" msg.
Definition KeyError (msg : string) : exn := mkExn "KeyError" msg.

(** [str(n)] for an [int]. *)
Definition str_of_int (n : Z) : string := NilZero.string_of_int (Z.to_int n).

Definition opt_json {A : Type} (f : A -> json) (o : option A) : json :=
  match o with Some a => f a | None => JNull end.

(** Lookup in a decoded object. *)
Fixpoint assoc (key : string) (fields : list (string * json)) : option json :=
  match fields with
  | [] => None
  | (k, v) :: rest => if (k =? key)%string then Some v else assoc key rest
  end.

(** [d.get(key, default)]; only a [dict] has the method. *)
Definition py_get (d : json) (key : string) (default : json) : exn + json :=
  match d with
  | JDict fields =>
      inr (match assoc key fields with Some v => v | None => default end)
  | _ => inl (AttributeError
                ("'" ++ py_type_name d ++ "' object has no attribute 'get'"))
  end.

(** [v in [s1, s2, ...]] for a list of string literals. *)
Definition py_in (v : json) (candidates : list string) : bool :=
  match v with
  | JStr s => existsb (String.eqb s) candidates
  | _ => false
  end.

(** *** The remote interface (databricks.sdk.service.jobs) *)

Record RunNowRequest : Type := mkRunNow {
  rq_job_id : Z;
  rq_notebook_params : option json;
  rq_python_params : option json;
  rq_jar_params : option json;
  rq_pipeline_params : option json;
  rq_sql_params : option json;
  rq_dbt_commands : option json;
  rq_idempotency_token : option string
}.

Record RunNowResponse : Type := mkRunNowResponse {
  resp_run_id : Z;
  resp_number_in_job : Z
}.

(** What [w.jobs.run_now] hands back: databricks.sdk's [Wait], which [run_now]
    builds as [Wait(waiter, response=RunNowResponse.from_dict(...),
    run_id=...)].  An attribute of a [Wait] is looked up among the keyword
    arguments it was built with ([__getattr__(key)] is [self._bind[key]]), so
    [run_id] is there and a field of the response that was not bound is not. *)
Record Wait : Type := mkWait {
  wait_response : RunNowResponse;
  wait_bind : list (string * Z)
}.

Fixpoint bound (key : string) (bind : list (string * Z)) : option Z :=
  match bind with
  | [] => None
  | (k, v) :: rest => if (k =? key)%string then Some v else bound key rest
  end.

(** [r.key] on a [Wait]. *)
Definition wait_getattr (r : Wait) (key : string) : exn + Z :=
  match bound key (wait_bind r) with
  | Some v => inr v
  | None => inl (KeyError ("'" ++ key ++ "'"))
  end.

Record RunState : Type := mkRunState {
  st_life_cycle_state : option string;   (* the enum member, by its [.value] *)
  st_state_message : option string
}.

Record Run : Type := mkRun {
  run_state : option RunState;
  run_run_page_url : option string;
  run_start_time : option Z
}.

(** *** Effects *)

Inductive event : Type :=
| EvClient                                          (* WorkspaceClient() *)
| EvLoads (text : string)                           (* json.loads(text) *)
| EvRunNow (req : RunNowRequest)                    (* w.jobs.run_now(...) *)
| EvGetRun (rid : Z)                                (* w.jobs.get_run(run_id=rid) *)
| EvSqlTrigger (job_id : string) (params_json : option string)
| EvSqlStatus (rid : json)                          (* SELECT get_job_status(rid) *)
| EvSleep (secs : Z).                               (* time.sleep(secs) *)

(** The calls that reach the job backend. *)
Definition is_remote (ev : event) : bool :=
  match ev with
  | EvRunNow _ | EvGetRun _ | EvSqlTrigger _ _ | EvSqlStatus _ => true
  | _ => false
  end.

Definition is_status_query (ev : event) : bool :=
  match ev with EvSqlStatus _ => true | _ => false end.

Definition is_sleep (ev : event) : bool :=
  match ev with EvSleep _ => true | _ => false end.

Definition remote_calls (tr : list event) : list event := filter is_remote tr.
Definition status_queries (tr : list event) : list event := filter is_status_query tr.
Definition sleeps (tr : list event) : list event := filter is_sleep tr.

Record world (B : Type) : Type := mkWorld {
  backend : B;
  trace : list event
}.
Arguments mkWorld {B} _ _.
Arguments backend {B} _.
Arguments trace {B} _.

Definition initial {B : Type} (b : B) : world B := mkWorld b [].

(** A computation either returns a value ([inr]) or raises ([inl]). *)
Definition M (B A : Type) : Type := world B -> world B * (exn + A).

Definition ret {B A : Type} (a : A) : M B A := fun w => (w, inr a).

Definition raise {B A : Type} (e : exn) : M B A := fun w => (w, inl e).

Definition bind {B A C : Type} (m : M B A) (k : A -> M B C) : M B C :=
  fun w =>
    match m w with
    | (w', inr a) => k a w'
    | (w', inl e) => (w', inl e)
    end.

(** [try: m  except ... as e: h e]. *)
Definition try_except {B A : Type} (m : M B A) (h : exn -> M B A) : M B A :=
  fun w =>
    match m w with
    | (w', inl e) => h e w'
    | (w', inr a) => (w', inr a)
    end.

(** An effect: it is recorded in the trace and answered by the backend. *)
Definition call {B A : Type} (ev : event) (f : B -> B * (exn + A)) : M B A :=
  fun w =>
    let (b', r) := f (backend w) in
    (mkWorld b' (trace w ++ [ev]), r).

Definition lift {B A : Type} (r : exn + A) : M B A := fun w => (w, r).

Declare Scope py_scope.
Delimit Scope py_scope with py.
Notation "x <- m ;; k" := (bind m (fun x => k))
  (at level 61, m at next level, right associativity) : py_scope.
Notation "m ;;; k" := (bind m (fun _ => k))
  (at level 61, right associativity) : py_scope.
Open Scope py_scope.

(** *** The six payloads *)

Inductive payload : Type := Notebook | Python | Jar | Pipeline | Sql | Dbt.

Definition payload_name (k : payload) : string :=
  match k with
  | Notebook => "notebook_params"
  | Python => "python_params"
  | Jar => "jar_params"
  | Pipeline => "pipeline_params"
  | Sql => "sql_params"
  | Dbt => "dbt_commands"
  end.

(** Mapping-shaped payloads; the others are sequence-shaped. *)
Definition expects_dict (k : payload) : bool :=
  match k with
  | Notebook | Pipeline | Sql => true
  | Python | Jar | Dbt => false
  end.

Definition isinstance_expected (k : payload) : json -> bool :=
  if expects_dict k then isinstance_dict else isinstance_list.

(** The message of the [ValueError] raised for a payload of the wrong shape. *)
Definition shape_error (k : payload) : string :=
  payload_name k ++
  (if expects_dict k then " must be a JSON object (dictionary)"
   else " must be a JSON array").

(** The arguments of [trigger_databricks_flow] in declaration order. *)
Definition declared
           (notebook_params python_params jar_params
            pipeline_params sql_params dbt_commands : option string)
  : list (payload * option string) :=
  [ (Notebook, notebook_params); (Python, python_params); (Jar, jar_params);
    (Pipeline, pipeline_params); (Sql, sql_params); (Dbt, dbt_commands) ].

Definition tuple6 (vs : list (option json))
  : option json * option json * option json *
    option json * option json * option json :=
  (nth 0 vs None, nth 1 vs None, nth 2 vs None,
   nth 3 vs None, nth 4 vs None, nth 5 vs None).

(** The handler of line 151: a [JSONDecodeError] becomes a [ValueError]. *)
Definition wrap_decode_error (e : exn) : exn :=
  if (exn_type e =? "JSONDecodeError")%string
  then ValueError ("Invalid JSON in parameters: " ++ exn_str e)
  else e.

(** An empty payload turned into an absent one. *)
Definition absent_if_empty (raw : option string) : option string :=
  match raw with
  | Some s => if (s =? EmptyString)%string then None else Some s
  | None => None
  end.

(** The lifecycle states that end the monitor. *)
Definition terminal_states : list string :=
  ["TERMINATED"; "SKIPPED"; "INTERNAL_ERROR"].

(** [needle] occurs in [hay]. *)
Fixpoint occurs_in (needle hay : string) : bool :=
  String.prefix needle hay ||
  match hay with
  | EmptyString => false
  | String _ rest => occurs_in needle rest
  end.

(** *** The platform: Python built-ins and the backend *)

Class Platform (B : Type) : Type := {
  (** [s.strip()] *)
  str_strip : string -> string;
  (** [int(s)]: the number, or the message of the [ValueError] *)
  py_int : string -> string + Z;
  (** [json.loads(s)]: the value, or the message of the [JSONDecodeError] *)
  json_loads : string -> string + json;
  (** [json.dumps(v, indent=2)] *)
  json_dumps : json -> string;
  (** [json.dumps(v)] *)
  json_dumps_flat : json -> string;
  sdk_WorkspaceClient : B -> B * (exn + unit);
  sdk_run_now : B -> RunNowRequest -> B * (exn + RunNowResponse);
  sdk_get_run : B -> Z -> B * (exn + Run);
  (** [spark.sql("SELECT trigger_databricks_flow(job_id[, params])")
        .collect()[0]['result']] *)
  sql_trigger_databricks_flow : B -> string -> option string -> B * (exn + string);
  (** [spark.sql("SELECT get_job_status(run_id)").collect()[0]['result']] *)
  sql_get_job_status : B -> json -> B * (exn + string)
}.

Section Program.
Context {B : Type} `{P : Platform B}.

Definition int_of_str (s : string) : M B Z :=
  lift (match py_int s with
        | inl msg => inl (ValueError msg)
        | inr n => inr n
        end).

Definition loads (text : string) : M B json :=
  call (EvLoads text)
       (fun b => (b, match json_loads text with
                     | inl msg => inl (JSONDecodeError msg)
                     | inr v => inr v
                     end)).

Definition sleep (secs : Z) : M B unit :=
  if secs <? 0
  then raise (ValueError "sleep length must be non-negative")
  else call (EvSleep secs) (fun b => (b, inr tt)).

(** ** src/trigger_flow_function.py *)

(** One block of lines 121-149:
<<
    if raw:
        parsed = json.loads(raw)
        if not isinstance(parsed, expected):
            raise ValueError(err)
>>
    [parsed] stays [None] when the block is skipped. *)
Definition parse_payload (raw : option string)
           (isinstance_expected : json -> bool) (err : string)
  : M B (option json) :=
  match raw with
  | Some text =>
      if truthy_str text then
        parsed <- loads text ;;
        if isinstance_expected parsed
        then ret (Some parsed)
        else raise (ValueError err)
      else ret None
  | None => ret None
  end.

(** Lines 120-152: the six blocks in the order of the source, inside
    [try: ... except json.JSONDecodeError as e: raise ValueError(...)]. *)
Definition parse_parameters
           (notebook_params python_params jar_params
            pipeline_params sql_params dbt_commands : option string)
  : M B (option json * option json * option json *
         option json * option json * option json) :=
  try_except
    (parsed_notebook_params <-
       parse_payload notebook_params isinstance_dict
         "notebook_params must be a JSON object (dictionary)" ;;
     parsed_python_params <-
       parse_payload python_params isinstance_list
         "python_params must be a JSON array" ;;
     parsed_jar_params <-
       parse_payload jar_params isinstance_list
         "jar_params must be a JSON array" ;;
     parsed_pipeline_params <-
       parse_payload pipeline_params isinstance_dict
         "pipeline_params must be a JSON object (dictionary)" ;;
     parsed_sql_params <-
       parse_payload sql_params isinstance_dict
         "sql_params must be a JSON object (dictionary)" ;;
     parsed_dbt_commands <-
       parse_payload dbt_commands isinstance_list
         "dbt_commands must be a JSON array" ;;
     ret (parsed_notebook_params, parsed_python_params, parsed_jar_params,
          parsed_pipeline_params, parsed_sql_params, parsed_dbt_commands))
    (fun e =>
       if (exn_type e =? "JSONDecodeError")%string
       then raise (ValueError ("Invalid JSON in parameters: " ++ exn_str e))
       else raise e).

(** Lines 172-184: the dictionary of a started run. *)
Definition success_result (job_id : string) (run_id number_in_job : Z)
           (life_cycle_state : json) (run_details : Run) : json :=
  JDict
    [ ("success", JBool true);
      ("run_id", JInt run_id);
      ("number_in_job", JInt number_in_job);
      ("job_id", JStr job_id);
      ("state",
        JDict
          [ ("life_cycle_state", life_cycle_state);
            ("state_message",
              match run_state run_details with
              | Some st => opt_json JStr (st_state_message st)
              | None => JNull
              end) ]);
      ("run_page_url", opt_json JStr (run_run_page_url run_details));
      ("start_time", opt_json JInt (run_start_time run_details));
      ("message",
        JStr ("Successfully triggered job " ++ job_id ++ ". Run ID: "
              ++ str_of_int run_id)) ].

(** Lines 189-195: the dictionary of a failed trigger. *)
Definition error_result (job_id : string) (e : exn) : json :=
  JDict
    [ ("success", JBool false);
      ("job_id", JStr job_id);
      ("error", JStr (exn_str e));
      ("error_type", JStr (exn_type e));
      ("message",
        JStr ("Failed to trigger job " ++ job_id ++ ": " ++ exn_str e)) ].

(** [run_details.state.life_cycle_state.value if run_details.state else None] *)
Definition life_cycle_state_value (run_details : Run) : exn + json :=
  match run_state run_details with
  | Some st =>
      match st_life_cycle_state st with
      | Some v => inr (JStr v)
      | None =>
          inl (AttributeError "'NoneType' object has no attribute 'value'")
      end
  | None => inr JNull
  end.

(** Lines 156-165: the keyword arguments of [w.jobs.run_now]. *)
Definition run_now_request (job_key : Z)
           (parsed : option json * option json * option json *
                     option json * option json * option json)
           (idempotency_token : option string) : RunNowRequest :=
  let '(parsed_notebook_params, parsed_python_params, parsed_jar_params,
        parsed_pipeline_params, parsed_sql_params, parsed_dbt_commands) :=
    parsed in
  mkRunNow job_key parsed_notebook_params parsed_python_params
           parsed_jar_params parsed_pipeline_params parsed_sql_params
           parsed_dbt_commands idempotency_token.

(** [w.jobs.run_now(...)]: the start-run call, whose answer comes wrapped in
    a [Wait] bound to the run id. *)
Definition jobs_run_now (req : RunNowRequest) : M B Wait :=
  response <- call (EvRunNow req) (fun b => sdk_run_now b req) ;;
  ret (mkWait response [("run_id", resp_run_id response)]).

(** Lines 155-196, before [json.dumps]: the dictionary that is serialised.
    Every exception of the [try] body ends in the [except Exception]
    handler.  The entries of the dictionary of line 172 are evaluated in the
    order they are written: [run_response.number_in_job] before the state of
    the run. *)
Definition trigger_dict (job_id : string)
           (parsed : option json * option json * option json *
                     option json * option json * option json)
           (idempotency_token : option string) : M B json :=
  try_except
    (job_key <- int_of_str job_id ;;
     let req := run_now_request job_key parsed idempotency_token in
     run_response <- jobs_run_now req ;;
     run_id <- lift (wait_getattr run_response "run_id") ;;
     run_details <- call (EvGetRun run_id) (fun b => sdk_get_run b run_id) ;;
     number_in_job <- lift (wait_getattr run_response "number_in_job") ;;
     life_cycle_state <- lift (life_cycle_state_value run_details) ;;
     ret (success_result job_id run_id number_in_job life_cycle_state
                         run_details))
    (fun e => ret (error_result job_id e)).

(** Lines 104-152: the validation that precedes the remote calls. *)
Definition validate (job_id : string)
           (notebook_params python_params jar_params
            pipeline_params sql_params dbt_commands : option string)
  : M B (option json * option json * option json *
         option json * option json * option json) :=
  if negb (truthy_str job_id) || negb (truthy_str (str_strip job_id))
  then raise (ValueError "job_id is required and cannot be empty")
  else
    call EvClient sdk_WorkspaceClient ;;;
    parse_parameters notebook_params python_params jar_params
                     pipeline_params sql_params dbt_commands.

(** Lines 17-196, up to the dictionary handed to [json.dumps]. *)
Definition trigger_result (job_id : string)
           (notebook_params python_params jar_params
            pipeline_params sql_params dbt_commands
            idempotency_token : option string) : M B json :=
  parsed <- validate job_id notebook_params python_params jar_params
                     pipeline_params sql_params dbt_commands ;;
  trigger_dict job_id parsed idempotency_token.

(** Lines 17-196. *)
Definition trigger_databricks_flow (job_id : string)
           (notebook_params python_params jar_params
            pipeline_params sql_params dbt_commands
            idempotency_token : option string) : M B string :=
  result <- trigger_result job_id notebook_params python_params jar_params
                           pipeline_params sql_params dbt_commands
                           idempotency_token ;;
  ret (json_dumps result).

(** ** src/example_usage.py, Example 11 *)

(** Lines 350-360: does the decoded answer make the loop return?
<<
    if status_dict.get('success'):
        state = status_dict.get('state', {})
        life_cycle_state = state.get('life_cycle_state')
        result_state = state.get('result_state')
        if life_cycle_state in ['TERMINATED', 'SKIPPED', 'INTERNAL_ERROR']:
            return status_dict
>>
    [inl] is the [AttributeError] of a [.get] on something that is not a
    [dict]. *)
Definition run_completed (status_dict : json) : exn + bool :=
  match py_get status_dict "success" JNull with
  | inl e => inl e
  | inr success =>
      if truthy success then
        match py_get status_dict "state" (JDict []) with
        | inl e => inl e
        | inr state =>
            match py_get state "life_cycle_state" JNull with
            | inl e => inl e
            | inr life_cycle_state =>
                match py_get state "result_state" JNull with
                | inl e => inl e
                | inr result_state =>
                    inr (py_in life_cycle_state
                               ["TERMINATED"; "SKIPPED"; "INTERNAL_ERROR"])
                end
            end
        end
      else inr false
  end.

(** Lines 344-363, one turn of the [while] body.  [Some status_dict] is
    the [return status_dict] of line 360; [None] is the fall-through, after
    [time.sleep(poll_interval)], to the next test of the loop condition.
    The [print] calls have no effect on the result and are left out. *)
Definition poll_once (run_id : json) (poll_interval : Z)
  : M B (option json) :=
  status_result <-
    call (EvSqlStatus run_id) (fun b => sql_get_job_status b run_id) ;;
  status_dict <- loads status_result ;;
  completed <- lift (run_completed status_dict) ;;
  if (completed : bool) then ret (Some status_dict)
  else
    sleep poll_interval ;;;
    ret None.

(** Lines 342-366: [while elapsed < max_wait: ...] followed by
    [return None].  [fuel] bounds the number of turns; the result is [None]
    when the bound is reached with the loop still running. *)
Fixpoint monitor_loop (fuel : nat) (run_id : json)
         (poll_interval max_wait elapsed : Z) (w : world B)
  : option (world B * (exn + option json)) :=
  if elapsed <? max_wait then
    match fuel with
    | O => None
    | S fuel' =>
        match poll_once run_id poll_interval w with
        | (w', inl e) => Some (w', inl e)
        | (w', inr (Some status_dict)) => Some (w', inr (Some status_dict))
        | (w', inr None) =>
            monitor_loop fuel' run_id poll_interval max_wait
                         (elapsed + poll_interval) w'
        end
    end
  else Some (w, inr None).

(** Lines 341-366: the monitor, entered with [elapsed = 0]. *)
Definition monitor (fuel : nat) (run_id : json) (poll_interval max_wait : Z)
           (w : world B) : option (world B * (exn + option json)) :=
  monitor_loop fuel run_id poll_interval max_wait 0 w.

(** Lines 320-336: trigger through SQL and read the run identifier.
    [inr None] is the [return None] of line 334. *)
Definition trigger_step (job_id : string) (notebook_params : option json)
  : M B (option json) :=
  result <-
    (if truthy (opt_json (fun d => d) notebook_params) then
       let params_json :=
         json_dumps_flat (opt_json (fun d => d) notebook_params) in
       call (EvSqlTrigger job_id (Some params_json))
            (fun b => sql_trigger_databricks_flow b job_id (Some params_json))
     else
       call (EvSqlTrigger job_id None)
            (fun b => sql_trigger_databricks_flow b job_id None)) ;;
  result_dict <- loads result ;;
  success <- lift (py_get result_dict "success" JNull) ;;
  if negb (truthy success) then ret None
  else
    run_id <- lift (py_get result_dict "run_id" JNull) ;;
    run_page_url <- lift (py_get result_dict "run_page_url" JNull) ;;
    ret (Some run_id).

(** Lines 309-366. *)
Definition trigger_and_monitor_job (fuel : nat) (job_id : string)
           (notebook_params : option json) (poll_interval max_wait : Z)
           (w : world B) : option (world B * (exn + option json)) :=
  match trigger_step job_id notebook_params w with
  | (w', inl e) => Some (w', inl e)
  | (w', inr None) => Some (w', inr None)
  | (w', inr (Some run_id)) => monitor fuel run_id poll_interval max_wait w'
  end.

(** ** The vocabulary of the specification *)

(** The precondition of lines 105-106 fails: the identifier is empty or
    whitespace only. *)
Definition job_id_missing (job_id : string) : bool :=
  negb (truthy_str job_id) || negb (truthy_str (str_strip job_id)).

(** The [json.loads] call a payload causes, if any. *)
Definition decode_event (raw : option string) : list event :=
  match raw with
  | Some text => if truthy_str text then [EvLoads text] else []
  | None => []
  end.

(** What one block of the normaliser does with its payload: the value it
    leaves in [parsed_...], or the exception it raises inside the [try]. *)
Definition payload_verdict (k : payload) (raw : option string)
  : exn + option json :=
  match raw with
  | Some text =>
      if truthy_str text then
        match json_loads text with
        | inl msg => inl (JSONDecodeError msg)
        | inr v =>
            if isinstance_expected k v then inr (Some v)
            else inl (ValueError (shape_error k))
        end
      else inr None
  | None => inr None
  end.

Definition payload_valid (k : payload) (raw : option string) : Prop :=
  exists v, payload_verdict k raw = inr v.

(** The normaliser as section 4.1 of the specification describes it: one
    pass over the payloads in declaration order that stops at the first
    violation.  The result is the trace of decodings and either the
    exception of the first violation or the decoded values. *)
Fixpoint normalize (l : list (payload * option string))
  : list event * (exn + list (option json)) :=
  match l with
  | [] => ([], inr [])
  | (k, raw) :: rest =>
      match payload_verdict k raw with
      | inl e => (decode_event raw, inl e)
      | inr v =>
          let (evs, r) := normalize rest in
          ((decode_event raw ++ evs)%list,
           match r with
           | inl e => inl e
           | inr vs => inr (v :: vs)
           end)
      end
  end.

(** The answer of a status query reports lifecycle state [l]. *)
Definition reports_state (status_dict : json) (l : string) : Prop :=
  exists fields success state_fields,
    status_dict = JDict fields /\
    assoc "success" fields = Some success /\
    truthy success = true /\
    assoc "state" fields = Some (JDict state_fields) /\
    assoc "life_cycle_state" state_fields = Some (JStr l).

End Program.

(** ** A scripted backend

    The test double the definitions run on: the state of the backend is the
    script of its answers. *)

Record Mock : Type := mkMock {
  mock_client : exn + unit;
  mock_run_now : exn + RunNowResponse;
  mock_get_run : exn + Run;
  mock_trigger : exn + string;
  mock_status : list string          (* one answer per status query *)
}.

Definition is_space (c : ascii) : bool :=
  let n := Z.of_nat (nat_of_ascii c) in
  ((9 <=? n) && (n <=? 13)) || ((28 <=? n) && (n <=? 32)).

Fixpoint lstrip (cs : list ascii) : list ascii :=
  match cs with
  | c :: rest => if is_space c then lstrip rest else cs
  | [] => []
  end.

Definition ascii_strip (s : string) : string :=
  string_of_list_ascii
    (rev (lstrip (rev (lstrip (list_ascii_of_string s))))).

Definition digit_of (c : ascii) : option Z :=
  let n := Z.of_nat (nat_of_ascii c) in
  if (48 <=? n) && (n <=? 57) then Some (n - 48) else None.

(** Decimal digits, single underscores allowed between two digits. *)
Fixpoint digits (cs : list ascii) (acc : Z) (after_digit : bool) : option Z :=
  match cs with
  | [] => if after_digit then Some acc else None
  | c :: rest =>
      match digit_of c with
      | Some d => digits rest (10 * acc + d) true
      | None =>
          if Ascii.eqb c "_"%char && after_digit
          then digits rest acc false
          else None
      end
  end.

Definition ascii_int (s : string) : string + Z :=
  let parsed :=
    match list_ascii_of_string (ascii_strip s) with
    | c :: rest =>
        if Ascii.eqb c "-"%char then option_map Z.opp (digits rest 0 false)
        else if Ascii.eqb c "+"%char then digits rest 0 false
        else digits (c :: rest) 0 false
    | [] => None
    end in
  match parsed with
  | Some n => inr n
  | None => inl ("invalid literal for int() with base 10: '" ++ s ++ "'")
  end.

(** Answers of the SQL functions. *)
Definition text_failed : string := "{'success': false}".

Definition text_running : string :=
  "{'success': true, 'state': {'life_cycle_state': 'RUNNING'}}".

Definition text_terminated : string :=
  "{'success': true, 'state': {'life_cycle_state': 'TERMINATED', "
  ++ "'result_state': 'SUCCESS'}}".

Definition text_triggered : string := "{'success': true, 'run_id': 555}".

(** The texts the scripted decoder knows, each with the value it stands for.
    The double quotes of JSON are written as single quotes here.  Any other
    text is answered as [json.loads] answers a text that is not JSON. *)
Definition known_texts : list (string * json) :=
  [ ("{}", JDict []);
    ("[]", JList []);
    ("7", JInt 7);
    ("{'env': 'dev'}", JDict [("env", JStr "dev")]);
    ("['--verbose']", JList [JStr "--verbose"]);
    (text_failed, JDict [("success", JBool false)]);
    (text_running,
      JDict [("success", JBool true);
             ("state", JDict [("life_cycle_state", JStr "RUNNING")])]);
    (text_terminated,
      JDict [("success", JBool true);
             ("state", JDict [("life_cycle_state", JStr "TERMINATED");
                              ("result_state", JStr "SUCCESS")])]);
    (text_triggered,
      JDict [("success", JBool true); ("run_id", JInt 555)]) ].

Definition table_loads (text : string) : string + json :=
  match find (fun kv => (fst kv =? text)%string) known_texts with
  | Some kv => inr (snd kv)
  | None => inl "Expecting value: line 1 column 1 (char 0)"
  end.

(** A compact rendering, enough to tell results apart. *)
Fixpoint compact_dumps (v : json) : string :=
  match v with
  | JNull => "null"
  | JBool true => "true"
  | JBool false => "false"
  | JInt z => str_of_int z
  | JStr s => "'" ++ s ++ "'"
  | JList items =>
      "[" ++ fold_right (fun x acc => compact_dumps x ++ "," ++ acc)
                        EmptyString items ++ "]"
  | JDict fields =>
      "{" ++ fold_right
               (fun kv acc => "'" ++ fst kv ++ "':" ++ compact_dumps (snd kv)
                              ++ "," ++ acc) EmptyString fields ++ "}"
  end.

Definition mock_next_status (b : Mock) : Mock * (exn + string) :=
  match mock_status b with
  | [] => (b, inl (mkExn "AnalysisException" "no answer scripted"))
  | [s] => (b, inr s)
  | s :: rest =>
      (mkMock (mock_client b) (mock_run_now b) (mock_get_run b)
              (mock_trigger b) rest, inr s)
  end.

#[export] Instance mock_platform : Platform Mock := {
  str_strip := ascii_strip;
  py_int := ascii_int;
  json_loads := table_loads;
  json_dumps := compact_dumps;
  json_dumps_flat := compact_dumps;
  sdk_WorkspaceClient := fun b => (b, mock_client b);
  sdk_run_now := fun b _ => (b, mock_run_now b);
  sdk_get_run := fun b _ => (b, mock_get_run b);
  sql_trigger_databricks_flow := fun b _ _ => (b, mock_trigger b);
  sql_get_job_status := fun b _ => mock_next_status b
}.

(** A backend that starts run 555 and reports it RUNNING. *)
Definition healthy : Mock :=
  mkMock (inr tt)
         (inr (mkRunNowResponse 555 1))
         (inr (mkRun (Some (mkRunState (Some "RUNNING") None))
                     (Some "https://host/#job/123456789/run/555")
                     (Some 1700000000000)))
         (inr text_triggered)
         [text_running; text_terminated].

(** A backend whose start-run call is refused. *)
Definition refusing : Mock :=
  mkMock (inr tt)
         (inl (mkExn "ResourceDoesNotExist" "Job 999999999 does not exist."))
         (mock_get_run healthy)
         (mock_trigger healthy)
         (mock_status healthy).

(** A backend with the given answers to the status queries. *)
Definition answering (answers : list string) : Mock :=
  mkMock (inr tt) (mock_run_now healthy) (mock_get_run healthy)
         (mock_trigger healthy) answers.

(** The request and the final world of a trigger call that starts run 555
    on [healthy], and the failure it ends in. *)
Definition demo_request : RunNowRequest :=
  mkRunNow 123456789 (Some (JDict [("env", JStr "dev")]))
           None None None None None None.

Definition started_world : world Mock :=
  mkWorld healthy
          [EvClient; EvLoads "{'env': 'dev'}"; EvRunNow demo_request; EvGetRun 555].

Definition number_in_job_missing : exn := KeyError "'number_in_job'".

Definition status_terminated : json :=
  JDict [("success", JBool true);
         ("state", JDict [("life_cycle_state", JStr "TERMINATED");
                          ("result_state", JStr "SUCCESS")])].

Definition notebook_shape_error : string :=
  "notebook_params must be a JSON object (dictionary)".

Definition decode_failure : string :=
  "Invalid JSON in parameters: Expecting value: line 1 column 1 (char 0)".

(** A backend whose client cannot be built. *)
Definition unauthenticated : Mock :=
  mkMock (inl (ValueError "default auth: cannot configure default credentials"))
         (mock_run_now healthy) (mock_get_run healthy)
         (mock_trigger healthy) (mock_status healthy).

(** A backend whose get-run answer has the given state. *)
Definition reporting (st : option RunState) : Mock :=
  mkMock (inr tt) (mock_run_now healthy)
         (inr (mkRun st (Some "https://host/#job/123456789/run/555") None))
         (mock_trigger healthy) (mock_status healthy).

(** * The callers and the rest of the files *)

(** ** src/trigger_flow_function.py, lines 200-215: the script *)

Definition dquote : string := String "034"%char EmptyString.
Definition newline : string := String "010"%char EmptyString.

(** The four lines printed when the job id is missing. *)
Definition usage_lines : list string :=
  [ "Usage: python trigger_flow_function.py <job_id> [notebook_params_json]";
    newline ++ "Example:";
    "  python trigger_flow_function.py 123456789";
    "  python trigger_flow_function.py 123456789 '{" ++ dquote ++ "param1"
      ++ dquote ++ ": " ++ dquote ++ "value1" ++ dquote ++ "}'" ].

(** How a script ends: it runs to its end, calls [sys.exit], or dies of an
    exception nobody caught. *)
Inductive ending : Type :=
| Completed
| SysExit (status : Z)
| Uncaught (e : exn).

(** ** src/local_test.py: the parsed command line *)

Record Args : Type := mkArgs {
  arg_job_id : string;
  arg_notebook_params : option string;
  arg_python_params : option string;
  arg_jar_params : option string;
  arg_pipeline_params : option string;
  arg_sql_params : option string;
  arg_dbt_commands : option string;
  arg_idempotency_token : option string;
  arg_dry_run : bool
}.

Section Callers.
Context {B : Type} `{P : Platform B}.

(** Lines 200-215 of src/trigger_flow_function.py.  The result is the lines
    printed, in order, and the way the script ends. *)
Definition script_main (argv : list string) (w : world B)
  : world B * (list string * ending) :=
  if (List.length argv <? 2)%nat then (w, (usage_lines, SysExit 1))
  else
    let job_id := nth 1 argv EmptyString in
    let notebook_params :=
      if (2 <? List.length argv)%nat
      then Some (nth 2 argv EmptyString) else None in
    let banner := "Triggering job " ++ job_id ++ "..." in
    match trigger_databricks_flow job_id notebook_params
                                  None None None None None None w with
    | (w', inr result) => (w', ([banner; result], Completed))
    | (w', inl e) => (w', ([banner], Uncaught e))
    end.

(** Lines 87-128 of src/local_test.py, [main] after [parser.parse_args()].
    The [print] calls are left out; the [.get] calls made for them are kept,
    since they can raise inside the [try]. *)
Definition local_test_main (args : Args) : M B unit :=
  if arg_dry_run args then ret tt
  else
    try_except
      (result <-
         trigger_databricks_flow
           (arg_job_id args) (arg_notebook_params args)
           (arg_python_params args) (arg_jar_params args)
           (arg_pipeline_params args) (arg_sql_params args)
           (arg_dbt_commands args) (arg_idempotency_token args) ;;
       result_dict <- loads result ;;
       success <- lift (py_get result_dict "success" JNull) ;;
       if truthy success then
         run_id <- lift (py_get result_dict "run_id" JNull) ;;
         number_in_job <- lift (py_get result_dict "number_in_job" JNull) ;;
         state <- lift (py_get result_dict "state" (JDict [])) ;;
         life_cycle_state <- lift (py_get state "life_cycle_state" JNull) ;;
         run_page_url <- lift (py_get result_dict "run_page_url" JNull) ;;
         ret tt
       else
         error_type <- lift (py_get result_dict "error_type" JNull) ;;
         message <- lift (py_get result_dict "message" JNull) ;;
         ret tt)
      (fun e => ret tt).

(** A backend that answers the status queries with the given texts, none of
    which makes the loop return; each answer comes with the state it leaves
    the backend in. *)
Fixpoint keeps_polling (run_id : json) (b : B) (answers : list (string * B))
  : Prop :=
  match answers with
  | [] => True
  | (text, b') :: rest =>
      sql_get_job_status b run_id = (b', inr text) /\
      (exists status_dict,
          json_loads text = inr status_dict /\
          run_completed status_dict = inr false) /\
      keeps_polling run_id b' rest
  end.

Definition backend_after (b : B) (answers : list (string * B)) : B :=
  last (map snd answers) b.

(** The effects of the turns that got these answers. *)
Definition polling_trace (run_id : json) (poll_interval : Z)
           (answers : list (string * B)) : list event :=
  flat_map (fun a => [EvSqlStatus run_id; EvLoads (fst a); EvSleep poll_interval])
           answers.

End Callers.

(** ** src/register_uc_functions.py: create_trigger_flow_function *)

(** [databricks.sdk.service.sql.StatementState]. *)
Inductive StatementState : Type :=
| PENDING | RUNNING | SUCCEEDED | FAILED | CANCELED | CLOSED.

(** [statement.status.state in [StatementState.PENDING, StatementState.RUNNING]] *)
Definition in_progress (s : StatementState) : bool :=
  match s with PENDING | RUNNING => true | _ => false end.

Definition is_succeeded (s : StatementState) : bool :=
  match s with SUCCEEDED => true | _ => false end.

(** What the code reads of a statement: its id, [status.state] and
    [status.error]. *)
Record Statement : Type := mkStatement {
  stmt_id : string;
  stmt_state : StatementState;
  stmt_error : string
}.

(** What the code reads of a [FunctionInfo]: [full_name], [comment] and
    [input_params.parameters], each of which may be [None]. *)
Record FunctionInfo : Type := mkFunctionInfo {
  fi_full_name : option string;
  fi_comment : option string;
  fi_input_params : option (option (list string))
}.

Inductive reg_event : Type :=
| RegClient                                              (* WorkspaceClient() *)
| RegExecute (statement catalog schema : string)         (* execute_statement *)
| RegGetStatement (id : string)                          (* get_statement *)
| RegSleep (secs : Z)                                    (* time.sleep *)
| RegFunctionsGet (name : string).                       (* w.functions.get *)

Definition is_get_statement (ev : reg_event) : bool :=
  match ev with RegGetStatement _ => true | _ => false end.

Definition is_functions_get (ev : reg_event) : bool :=
  match ev with RegFunctionsGet _ => true | _ => false end.

Section Registration.
Variable W : Type.
Variable reg_WorkspaceClient : W -> W * (exn + unit).
Variable execute_statement :
  W -> string -> string -> string -> W * (exn + Statement).
Variable get_statement : W -> string -> W * (exn + Statement).
Variable functions_get : W -> string -> W * (exn + FunctionInfo).
(** The CREATE FUNCTION statement of lines 40-150 for a function name. *)
Variable sql_body : string -> string.

(** The registration runs in the monad of the trigger, over the workspace
    and the log of its own calls. *)
Definition reg_call {A : Type} (ev : reg_event) (f : W -> W * (exn + A))
  : M (W * list reg_event) A :=
  fun w =>
    let (b', r) := f (fst (backend w)) in
    (mkWorld (b', (snd (backend w) ++ [ev])%list) (trace w), r).

Definition reg_log (w : world (W * list reg_event)) : list reg_event :=
  snd (backend w).

(** Lines 169-172: the loop that waits for the statement.  [None] when the
    fuel runs out with the statement still in progress. *)
Fixpoint wait_for_completion (fuel : nat) (statement : Statement)
         (w : world (W * list reg_event))
  : option (world (W * list reg_event) * (exn + Statement)) :=
  if in_progress (stmt_state statement) then
    match fuel with
    | O => None
    | S fuel' =>
        match (reg_call (RegSleep 1) (fun b => (b, inr tt)) ;;;
               reg_call (RegGetStatement (stmt_id statement))
                        (fun b => get_statement b (stmt_id statement))) w with
        | (w', inl e) => Some (w', inl e)
        | (w', inr statement') => wait_for_completion fuel' statement' w'
        end
    end
  else Some (w, inr statement).

(** Lines 188-197: the verification.  The [print] of the number of
    parameters raises when [input_params] or its [parameters] is [None]. *)
Definition verify_function (function_name : string)
  : M (W * list reg_event) (option FunctionInfo) :=
  try_except
    (function_info <-
       reg_call (RegFunctionsGet function_name)
                (fun b => functions_get b function_name) ;;
     match fi_input_params function_info with
     | Some (Some parameters) => ret (Some function_info)
     | Some None =>
         raise (mkExn "TypeError" "object of type 'NoneType' has no len()")
     | None =>
         raise (AttributeError
                  "'NoneType' object has no attribute 'parameters'")
     end)
    (fun e => ret None).

(** Lines 24-197. *)
Definition create_trigger_flow_function (fuel : nat) (catalog schema : string)
           (w : world (W * list reg_event))
  : option (world (W * list reg_event) * (exn + option FunctionInfo)) :=
  match reg_call RegClient reg_WorkspaceClient w with
  | (w0, inl e) => Some (w0, inl e)
  | (w0, inr _) =>
      let function_name :=
        catalog ++ "." ++ schema ++ ".trigger_databricks_flow" in
      match (statement <-
               reg_call (RegExecute (sql_body function_name) catalog schema)
                        (fun b => execute_statement
                                    b (sql_body function_name) catalog schema) ;;
             reg_call (RegGetStatement (stmt_id statement))
                      (fun b => get_statement b (stmt_id statement))) w0 with
      | (w1, inl e) => Some (w1, inr None)
      | (w1, inr statement) =>
          match wait_for_completion fuel statement w1 with
          | None => None
          | Some (w2, inl e) => Some (w2, inr None)
          | Some (w2, inr final) =>
              if is_succeeded (stmt_state final)
              then Some (verify_function function_name w2)
              else Some (w2, inr None)
          end
      end
  end.

(** A workspace whose statement stays in progress for the given answers. *)
Fixpoint stays_in_progress (b : W) (id : string)
         (answers : list (Statement * W)) : Prop :=
  match answers with
  | [] => True
  | (statement, b') :: rest =>
      get_statement b id = (b', inr statement) /\
      in_progress (stmt_state statement) = true /\
      stays_in_progress b' (stmt_id statement) rest
  end.

Definition workspace_after (b : W) (answers : list (Statement * W)) : W :=
  last (map snd answers) b.

Definition id_after (id : string) (answers : list (Statement * W)) : string :=
  last (map (fun a => stmt_id (fst a)) answers) id.

(** The log of the turns of the loop that these answers cause. *)
Definition waiting_log (answers : list (Statement * W)) : list reg_event :=
  flat_map (fun a => [RegSleep 1; RegGetStatement (stmt_id (fst a))]) answers.

End Registration.

Arguments reg_call {W A} _ _ _.
Arguments reg_log {W} _.
Arguments workspace_after {W} _ _.
Arguments id_after {W} _ _.
Arguments waiting_log {W} _.

(** ** src/01b_agent_with_local_tool.py *)

Definition IndexError (msg : string) : exn := mkExn "IndexError" msg.
Definition TypeError (msg : string) : exn := mkExn "TypeError" msg.

(** Lines 118-125, [should_continue], on [state["messages"]]. *)
Definition should_continue (messages : list json) : exn + string :=
  match messages with
  | [] => inl (IndexError "list index out of range")
  | first :: rest =>
      let last_message := last rest first in
      match py_get last_message "tool_calls" JNull with
      | inl e => inl e
      | inr tool_calls => inr (if truthy tool_calls then "continue" else "end")
      end
  end.

(** [for x in v]: the items a loop over a decoded value goes through. *)
Definition py_iter (v : json) : exn + list json :=
  match v with
  | JList items => inr items
  | JDict fields => inr (map (fun kv => JStr (fst kv)) fields)
  | JStr s =>
      inr (map (fun c => JStr (String c EmptyString)) (list_ascii_of_string s))
  | _ => inl (TypeError ("'" ++ py_type_name v ++ "' object is not iterable"))
  end.

(** The messages of the updates of a stream, in the order of the stream:
    event by event, node by node, message by message. *)
Definition update_messages (node_data : json) : list json :=
  match node_data with
  | JDict fields =>
      match assoc "messages" fields with
      | Some (JList items) => items
      | _ => []
      end
  | _ => []
  end.

Definition all_messages (events : list (list (string * json))) : list json :=
  flat_map (fun event => flat_map update_messages (map snd event)) events.

Section Agent.
(** [ChatAgentMessage], [ChatAgentChunk] and [ChatAgentResponse], and what
    their constructors answer. *)
Variables Message Chunk Response : Type.
Variable mk_message : json -> exn + Message.      (* ChatAgentMessage( **msg) *)
Variable mk_chunk : json -> exn + Chunk.          (* ChatAgentChunk(delta=msg) *)
Variable mk_response : list Message -> exn + Response.
(** The [TypeError] of [v["messages"]] for a [v] that is not a [dict]. *)
Variable subscript_error : json -> exn.

(** [node_data["messages"]]. *)
Definition getitem_messages (node_data : json) : exn + json :=
  match node_data with
  | JDict fields =>
      match assoc "messages" fields with
      | Some v => inr v
      | None => inl (KeyError "'messages'")
      end
  | _ => inl (subscript_error node_data)
  end.

(** [messages.extend(ChatAgentMessage( **msg) for msg in items)]: the messages
    added, or the exception that stops the call. *)
Fixpoint build_messages (items : list json) : exn + list Message :=
  match items with
  | [] => inr []
  | msg :: rest =>
      match mk_message msg with
      | inl e => inl e
      | inr m =>
          match build_messages rest with
          | inl e => inl e
          | inr ms => inr (m :: ms)
          end
      end
  end.

(** Lines 176-179, the inner loop of [predict] over [event.values()]. *)
Fixpoint predict_event (values : list json) : exn + list Message :=
  match values with
  | [] => inr []
  | node_data :: rest =>
      match py_get node_data "messages" (JList []) with
      | inl e => inl e
      | inr v =>
          match py_iter v with
          | inl e => inl e
          | inr items =>
              match build_messages items with
              | inl e => inl e
              | inr ms =>
                  match predict_event rest with
                  | inl e => inl e
                  | inr more => inr (ms ++ more)%list
                  end
              end
          end
      end
  end.

(** Lines 175-179, the loop of [predict] over the stream: the events it
    produces and the exception, if any, that ends it. *)
Fixpoint predict_events (events : list (list (string * json)))
         (stream_error : option exn) : exn + list Message :=
  match events with
  | [] => match stream_error with Some e => inl e | None => inr [] end
  | event :: rest =>
      match predict_event (map snd event) with
      | inl e => inl e
      | inr ms =>
          match predict_events rest stream_error with
          | inl e => inl e
          | inr more => inr (ms ++ more)%list
          end
      end
  end.

(** Lines 167-180, [predict], given what [self.agent.stream(request,
    stream_mode="updates")] produces. *)
Definition predict (events : list (list (string * json)))
           (stream_error : option exn) : exn + Response :=
  match predict_events events stream_error with
  | inl e => inl e
  | inr messages => mk_response messages
  end.

(** [yield from (ChatAgentChunk( **{"delta": msg}) for msg in items)]: the
    chunks yielded, and the exception that stops the generator, if any. *)
Fixpoint yield_chunks (items : list json) : list Chunk * option exn :=
  match items with
  | [] => ([], None)
  | msg :: rest =>
      match mk_chunk msg with
      | inl e => ([], Some e)
      | inr c => let (cs, err) := yield_chunks rest in (c :: cs, err)
      end
  end.

(** Lines 190-194, the inner loop of [predict_stream]. *)
Fixpoint stream_event (values : list json) : list Chunk * option exn :=
  match values with
  | [] => ([], None)
  | node_data :: rest =>
      match getitem_messages node_data with
      | inl e => ([], Some e)
      | inr v =>
          match py_iter v with
          | inl e => ([], Some e)
          | inr items =>
              match yield_chunks items with
              | (cs, Some e) => (cs, Some e)
              | (cs, None) =>
                  let (more, err) := stream_event rest in
                  ((cs ++ more)%list, err)
              end
          end
      end
  end.

(** Lines 183-194, [predict_stream]: the chunks the generator yields and the
    exception that ends it, if any. *)
Fixpoint predict_stream (events : list (list (string * json)))
         (stream_error : option exn) : list Chunk * option exn :=
  match events with
  | [] => ([], stream_error)
  | event :: rest =>
      match stream_event (map snd event) with
      | (cs, Some e) => (cs, Some e)
      | (cs, None) =>
          let (more, err) := predict_stream rest stream_error in
          ((cs ++ more)%list, err)
      end
  end.

End Agent.

(** ** Scripted collaborators for the callers *)

(** A backend whose SQL trigger function reports a failure. *)
Definition trigger_failing : Mock :=
  mkMock (inr tt) (mock_run_now healthy) (mock_get_run healthy)
         (inr text_failed) (mock_status healthy).

(** A workspace for the registration: the script of the states the statement
    is reported in, the last one repeated. *)
Definition script_get_statement (b : list StatementState) (id : string)
  : list StatementState * (exn + Statement) :=
  match b with
  | [] => (b, inl (mkExn "NotFound" "statement not found"))
  | [s] => (b, inr (mkStatement id s EmptyString))
  | s :: rest => (rest, inr (mkStatement id s EmptyString))
  end.

Definition script_execute (b : list StatementState)
           (statement catalog schema : string)
  : list StatementState * (exn + Statement) :=
  (b, inr (mkStatement "stmt-1" PENDING EmptyString)).

Definition script_client (b : list StatementState)
  : list StatementState * (exn + unit) := (b, inr tt).

Definition registered (name : string) : FunctionInfo :=
  mkFunctionInfo (Some name)
                 (Some "Trigger a Databricks Job/Flow and return the run details.")
                 (Some (Some ["job_id"; "notebook_params"; "python_params";
                              "jar_params"; "pipeline_params"; "sql_params";
                              "dbt_commands"; "idempotency_token"])).

Definition script_functions_get (b : list StatementState) (name : string)
  : list StatementState * (exn + FunctionInfo) :=
  (b, inr (registered name)).

Definition short_body (name : string) : string :=
  "CREATE OR REPLACE FUNCTION " ++ name.

(** Workspaces where the registration fails: a warehouse that refuses the
    statement, and a catalog that does not know the function. *)
Definition script_execute_refused (b : list StatementState)
           (statement catalog schema : string)
  : list StatementState * (exn + Statement) :=
  (b, inl (mkExn "PermissionDenied" "not allowed to use the warehouse")).

Definition script_functions_get_missing (b : list StatementState)
           (name : string)
  : list StatementState * (exn + FunctionInfo) :=
  (b, inl (mkExn "NotFound" ("Function '" ++ name ++ "' does not exist."))).

Definition script_create (fuel : nat) (script : list StatementState) :=
  create_trigger_flow_function
    (list StatementState) script_client script_execute script_get_statement
    script_functions_get short_body fuel "main" "default"
    (mkWorld (script, []) []).

(** Three messages of a conversation, and constructors that accept all. *)
Definition message_a : json :=
  JDict [("role", JStr "assistant"); ("tool_calls", JList [JStr "run_job"])].
Definition message_b : json :=
  JDict [("role", JStr "tool"); ("content", JStr "{}")].
Definition message_c : json :=
  JDict [("role", JStr "assistant"); ("content", JStr "done")].

Definition accept (m : json) : exn + json := inr m.

Definition not_subscriptable (v : json) : exn :=
  TypeError ("'" ++ py_type_name v ++ "' object is not subscriptable").

Definition two_updates : list (list (string * json)) :=
  [ [("agent", JDict [("messages", JList [message_a])])];
    [("tools", JDict [("messages", JList [message_b; message_c])])] ].

(** * Properties *)

Section Properties.
Context {B : Type} `{P : Platform B}.

Lemma world_eta (w : world B) : mkWorld (backend w) (trace w) = w.
Proof. destruct w; reflexivity. Qed.

(** ** The normaliser *)

Lemma decode_event_loads (raw : option string) :
  remote_calls (decode_event raw) = [].
Proof.
  destruct raw as [text|]; simpl; [destruct (truthy_str text)|]; reflexivity.
Qed.

(** A block of the source does what [payload_verdict] says. *)
Lemma parse_payload_verdict (k : payload) (raw : option string) (w : world B) :
  parse_payload raw (isinstance_expected k) (shape_error k) w =
  (mkWorld (backend w) (trace w ++ decode_event raw), payload_verdict k raw).
Proof.
  destruct w as [b tr].
  unfold parse_payload, payload_verdict, decode_event.
  destruct raw as [text|]; simpl.
  - destruct (truthy_str text); simpl.
    + unfold bind, loads, call; simpl.
      destruct (json_loads text) as [msg|v]; simpl; [reflexivity|].
      destruct (isinstance_expected k v); reflexivity.
    + unfold ret. now rewrite app_nil_r.
  - unfold ret. now rewrite app_nil_r.
Qed.

Lemma raised_in_try (b : B) (tr : list event) (e : exn) (A : Type) :
  (if (exn_type e =? "JSONDecodeError")%string
   then raise (ValueError ("Invalid JSON in parameters: " ++ exn_str e))
   else raise e) (mkWorld b tr) =
  (mkWorld b tr, @inl exn A (wrap_decode_error e)).
Proof.
  unfold wrap_decode_error, raise.
  destruct (exn_type e =? "JSONDecodeError")%string; reflexivity.
Qed.

(** The six blocks of the source refine the one-pass normaliser. *)
Lemma parse_parameters_normalize
      (nb py jar pl sql dbt : option string) (w : world B) :
  parse_parameters nb py jar pl sql dbt w =
  (mkWorld (backend w)
           (trace w ++ fst (normalize (declared nb py jar pl sql dbt))),
   match snd (normalize (declared nb py jar pl sql dbt)) with
   | inl e => inl (wrap_decode_error e)
   | inr vs => inr (tuple6 vs)
   end).
Proof.
  unfold parse_parameters, try_except, bind.
  change "notebook_params must be a JSON object (dictionary)"
    with (shape_error Notebook).
  change "python_params must be a JSON array" with (shape_error Python).
  change "jar_params must be a JSON array" with (shape_error Jar).
  change "pipeline_params must be a JSON object (dictionary)"
    with (shape_error Pipeline).
  change "sql_params must be a JSON object (dictionary)"
    with (shape_error Sql).
  change "dbt_commands must be a JSON array" with (shape_error Dbt).
  change isinstance_dict with (isinstance_expected Notebook) at 1.
  change isinstance_list with (isinstance_expected Python) at 1.
  change isinstance_list with (isinstance_expected Jar) at 1.
  change isinstance_dict with (isinstance_expected Pipeline) at 1.
  change isinstance_dict with (isinstance_expected Sql) at 1.
  change isinstance_list with (isinstance_expected Dbt) at 1.
  unfold declared; cbn [normalize].
  rewrite parse_payload_verdict.
  destruct (payload_verdict Notebook nb) as [e|v1]; [apply raised_in_try|].
  rewrite parse_payload_verdict; cbn [backend trace].
  destruct (payload_verdict Python py) as [e|v2];
    [rewrite <- app_assoc; apply raised_in_try|].
  rewrite parse_payload_verdict; cbn [backend trace].
  destruct (payload_verdict Jar jar) as [e|v3];
    [rewrite <- !app_assoc; apply raised_in_try|].
  rewrite parse_payload_verdict; cbn [backend trace].
  destruct (payload_verdict Pipeline pl) as [e|v4];
    [rewrite <- !app_assoc; apply raised_in_try|].
  rewrite parse_payload_verdict; cbn [backend trace].
  destruct (payload_verdict Sql sql) as [e|v5];
    [rewrite <- !app_assoc; apply raised_in_try|].
  rewrite parse_payload_verdict; cbn [backend trace].
  destruct (payload_verdict Dbt dbt) as [e|v6];
    [rewrite <- !app_assoc; apply raised_in_try|].
  cbn [fst snd]. rewrite <- !app_assoc, app_nil_r. reflexivity.
Qed.

Lemma remote_calls_app (tr1 tr2 : list event) :
  remote_calls (tr1 ++ tr2) = (remote_calls tr1 ++ remote_calls tr2)%list.
Proof. apply filter_app. Qed.

Lemma normalize_no_remote (l : list (payload * option string)) :
  remote_calls (fst (normalize l)) = [].
Proof.
  induction l as [|[k raw] rest IH]; cbn [normalize]; [reflexivity|].
  destruct (payload_verdict k raw) as [e|v]; cbn [fst].
  - apply decode_event_loads.
  - destruct (normalize rest) as [evs r]; cbn [fst] in *.
    now rewrite remote_calls_app, decode_event_loads, IH.
Qed.

(** The pass stops at the first payload whose verdict is an exception:
    the payloads after it contribute nothing. *)
Lemma normalize_first_invalid
      (pre post : list (payload * option string))
      (k : payload) (raw : option string) (e : exn) :
  Forall (fun kr => payload_valid (fst kr) (snd kr)) pre ->
  payload_verdict k raw = inl e ->
  normalize (pre ++ (k, raw) :: post) =
  ((flat_map (fun kr => decode_event (snd kr)) pre ++ decode_event raw)%list,
   inl e).
Proof.
  intros Hpre Hk.
  induction Hpre as [|[k0 raw0] pre [v Hv] _ IH]; cbn [app flat_map normalize].
  - now rewrite Hk.
  - cbn [fst snd] in Hv. rewrite Hv, IH. cbn [snd].
    now rewrite app_assoc.
Qed.

(** A list that holds an invalid payload is rejected. *)
Lemma normalize_rejects (l : list (payload * option string))
      (k : payload) (raw : option string) (e : exn) :
  In (k, raw) l ->
  payload_verdict k raw = inl e ->
  exists k' raw' e',
    In (k', raw') l /\ payload_verdict k' raw' = inl e' /\
    snd (normalize l) = inl e'.
Proof.
  induction l as [|[k0 raw0] rest IH]; intros Hin Hk; [destruct Hin|].
  cbn [normalize].
  destruct (payload_verdict k0 raw0) as [e0|v0] eqn:H0.
  - exists k0, raw0, e0. cbn; auto.
  - destruct Hin as [Heq|Hin]; [congruence|].
    destruct (IH Hin Hk) as (k' & raw' & e' & Hin' & Hk' & Hn).
    exists k', raw', e'. split; [now right|]. split; [assumption|].
    destruct (normalize rest) as [evs r]; cbn [snd] in *. now rewrite Hn.
Qed.

(** Whatever a block raises leaves the [try] as a [ValueError]. *)
Lemma verdict_is_value_error (k : payload) (raw : option string) (e : exn) :
  payload_verdict k raw = inl e ->
  exists msg, wrap_decode_error e = ValueError msg.
Proof.
  unfold payload_verdict.
  destruct raw as [text|]; [|discriminate].
  destruct (truthy_str text); [|discriminate].
  destruct (json_loads text) as [msg|v].
  - intros [= <-]. eexists; reflexivity.
  - destruct (isinstance_expected k v); [discriminate|].
    intros [= <-]. eexists; reflexivity.
Qed.

(** ** Validation *)

Lemma validate_cases (job_id : string)
      (nb py jar pl sql dbt : option string) (w : world B) :
  validate job_id nb py jar pl sql dbt w =
  if job_id_missing job_id
  then (w, inl (ValueError "job_id is required and cannot be empty"))
  else
    match sdk_WorkspaceClient (backend w) with
    | (b1, inl e) => (mkWorld b1 (trace w ++ [EvClient]), inl e)
    | (b1, inr _) =>
        (mkWorld b1 (trace w ++ EvClient ::
                       fst (normalize (declared nb py jar pl sql dbt))),
         match snd (normalize (declared nb py jar pl sql dbt)) with
         | inl e => inl (wrap_decode_error e)
         | inr vs => inr (tuple6 vs)
         end)
    end.
Proof.
  unfold validate, job_id_missing.
  destruct (negb (truthy_str job_id) || negb (truthy_str (str_strip job_id)));
    [reflexivity|].
  unfold bind, call.
  destruct (sdk_WorkspaceClient (backend w)) as [b1 [e|u]]; [reflexivity|].
  rewrite parse_parameters_normalize; cbn [backend trace].
  now rewrite <- app_assoc.
Qed.

(** Validation reaches the backend with no job call. *)
Lemma validate_no_remote (job_id : string)
      (nb py jar pl sql dbt : option string) (w : world B) :
  remote_calls (trace (fst (validate job_id nb py jar pl sql dbt w))) =
  remote_calls (trace w).
Proof.
  rewrite validate_cases.
  destruct (job_id_missing job_id); [reflexivity|].
  destruct (sdk_WorkspaceClient (backend w)) as [b1 [e|u]]; cbn [fst trace];
    rewrite remote_calls_app.
  - cbn. now rewrite app_nil_r.
  - change (EvClient :: ?l) with ([EvClient] ++ l)%list.
    rewrite remote_calls_app, normalize_no_remote. cbn. now rewrite app_nil_r.
Qed.

(** ** The remote part of the trigger *)

Lemma trigger_dict_cases (job_id : string)
      (parsed : option json * option json * option json *
                option json * option json * option json)
      (tok : option string) (w : world B) :
  trigger_dict job_id parsed tok w =
  match py_int job_id with
  | inl msg => (w, inr (error_result job_id (ValueError msg)))
  | inr job_key =>
      let req := run_now_request job_key parsed tok in
      match sdk_run_now (backend w) req with
      | (b2, inl e) =>
          (mkWorld b2 (trace w ++ [EvRunNow req]),
           inr (error_result job_id e))
      | (b2, inr resp) =>
          match sdk_get_run b2 (resp_run_id resp) with
          | (b3, inl e) =>
              (mkWorld b3 (trace w ++ [EvRunNow req; EvGetRun (resp_run_id resp)]),
               inr (error_result job_id e))
          | (b3, inr run) =>
              (mkWorld b3 (trace w ++ [EvRunNow req; EvGetRun (resp_run_id resp)]),
               inr (error_result job_id (KeyError "'number_in_job'")))
          end
      end
  end.
Proof.
  unfold trigger_dict, jobs_run_now, try_except, bind, int_of_str, lift,
    call, ret.
  destruct (py_int job_id) as [msg|job_key]; [reflexivity|].
  cbn zeta.
  destruct (sdk_run_now (backend w) (run_now_request job_key parsed tok))
    as [b2 [e|resp]]; [reflexivity|].
  cbn [backend trace wait_getattr wait_bind bound String.eqb Ascii.eqb
       Bool.eqb].
  destruct (sdk_get_run b2 (resp_run_id resp)) as [b3 [e|run]];
    rewrite <- app_assoc; reflexivity.
Qed.

(** The [except Exception] handler leaves nothing to propagate. *)
Lemma trigger_dict_returns (job_id : string)
      (parsed : option json * option json * option json *
                option json * option json * option json)
      (tok : option string) (w : world B) :
  exists w' d, trigger_dict job_id parsed tok w = (w', inr d).
Proof.
  rewrite trigger_dict_cases.
  destruct (py_int job_id) as [msg|job_key]; [eauto|].
  cbn zeta.
  destruct (sdk_run_now _ _) as [b2 [e|resp]]; [eauto|].
  destruct (sdk_get_run _ _) as [b3 [e|run]]; eauto.
Qed.

Lemma trigger_flow_unfold (job_id : string)
      (nb py jar pl sql dbt tok : option string) (w : world B) :
  trigger_databricks_flow job_id nb py jar pl sql dbt tok w =
  match validate job_id nb py jar pl sql dbt w with
  | (w1, inl e) => (w1, inl e)
  | (w1, inr parsed) =>
      match trigger_dict job_id parsed tok w1 with
      | (w2, inl e) => (w2, inl e)
      | (w2, inr d) => (w2, inr (json_dumps d))
      end
  end.
Proof.
  unfold trigger_databricks_flow, trigger_result, bind, ret.
  destruct (validate job_id nb py jar pl sql dbt w) as [w1 [e|parsed]];
    [reflexivity|].
  destruct (trigger_dict job_id parsed tok w1) as [w2 [e|d]]; reflexivity.
Qed.

(** C1.  When a trigger call passes validation, the call returns: it never
    raises.  If the start-run call raises, or the start-run call answers and
    the get-run call raises, the value returned is the serialised failure
    dictionary, whose fields are success = false, the job id, error =
    str(e), error_type = type(e).__name__ and a message. *)
Theorem trigger_remote_failure_returned (job_id : string)
        (nb py jar pl sql dbt tok : option string) (w w1 : world B)
        (parsed : option json * option json * option json *
                  option json * option json * option json) :
  validate job_id nb py jar pl sql dbt w = (w1, inr parsed) ->
  (exists w2 d,
      trigger_databricks_flow job_id nb py jar pl sql dbt tok w =
      (w2, inr (json_dumps d))) /\
  (forall job_key b2 e,
      py_int job_id = inr job_key ->
      sdk_run_now (backend w1) (run_now_request job_key parsed tok) =
      (b2, inl e) ->
      trigger_databricks_flow job_id nb py jar pl sql dbt tok w =
      (mkWorld b2 (trace w1 ++ [EvRunNow (run_now_request job_key parsed tok)]),
       inr (json_dumps (error_result job_id e)))) /\
  (forall job_key b2 resp b3 e,
      py_int job_id = inr job_key ->
      sdk_run_now (backend w1) (run_now_request job_key parsed tok) =
      (b2, inr resp) ->
      sdk_get_run b2 (resp_run_id resp) = (b3, inl e) ->
      trigger_databricks_flow job_id nb py jar pl sql dbt tok w =
      (mkWorld b3 (trace w1 ++ [EvRunNow (run_now_request job_key parsed tok);
                                EvGetRun (resp_run_id resp)]),
       inr (json_dumps (error_result job_id e)))) /\
  (forall e,
      error_result job_id e =
      JDict [ ("success", JBool false);
              ("job_id", JStr job_id);
              ("error", JStr (exn_str e));
              ("error_type", JStr (exn_type e));
              ("message", JStr ("Failed to trigger job " ++ job_id ++ ": "
                                ++ exn_str e)) ]).
Proof.
  intros Hval.
  repeat split.
  - rewrite trigger_flow_unfold, Hval.
    destruct (trigger_dict_returns job_id parsed tok w1) as (w2 & d & Hd).
    rewrite Hd. eauto.
  - intros job_key b2 e Hint Hrun.
    rewrite trigger_flow_unfold, Hval, trigger_dict_cases, Hint.
    cbn zeta. now rewrite Hrun.
  - intros job_key b2 resp b3 e Hint Hrun Hget.
    rewrite trigger_flow_unfold, Hval, trigger_dict_cases, Hint.
    cbn zeta. now rewrite Hrun, Hget.
Qed.

(** C2, as the code has it.  An identifier that is empty, whitespace only
    or not a number never reaches the job backend.  An empty or
    whitespace-only identifier raises ValueError before anything else is
    done.  An identifier that is not a number passes validation; its
    conversion fails inside the guarded block, so the call returns the
    failure dictionary with error_type ValueError instead of raising. *)
Theorem invalid_job_id_no_remote_call (job_id : string)
        (nb py jar pl sql dbt tok : option string) (w : world B) :
  job_id_missing job_id = true \/ (exists msg, py_int job_id = inl msg) ->
  remote_calls
    (trace (fst (trigger_databricks_flow job_id nb py jar pl sql dbt tok w))) =
  remote_calls (trace w) /\
  (job_id_missing job_id = true ->
   trigger_databricks_flow job_id nb py jar pl sql dbt tok w =
   (w, inl (ValueError "job_id is required and cannot be empty"))) /\
  (forall msg w1 parsed,
      py_int job_id = inl msg ->
      validate job_id nb py jar pl sql dbt w = (w1, inr parsed) ->
      trigger_databricks_flow job_id nb py jar pl sql dbt tok w =
      (w1, inr (json_dumps (error_result job_id (ValueError msg))))).
Proof.
  intros Hbad.
  assert (Hmissing :
            job_id_missing job_id = true ->
            trigger_databricks_flow job_id nb py jar pl sql dbt tok w =
            (w, inl (ValueError "job_id is required and cannot be empty"))).
  { intros Hm. now rewrite trigger_flow_unfold, validate_cases, Hm. }
  assert (Hnonnum :
            forall msg w1 parsed,
              py_int job_id = inl msg ->
              validate job_id nb py jar pl sql dbt w = (w1, inr parsed) ->
              trigger_databricks_flow job_id nb py jar pl sql dbt tok w =
              (w1, inr (json_dumps (error_result job_id (ValueError msg))))).
  { intros msg w1 parsed Hint Hval.
    now rewrite trigger_flow_unfold, Hval, trigger_dict_cases, Hint. }
  split; [|split; assumption].
  destruct (job_id_missing job_id) eqn:Hm.
  - now rewrite Hmissing.
  - destruct Hbad as [Hbad|[msg Hint]]; [discriminate|].
    pose proof (validate_no_remote job_id nb py jar pl sql dbt w) as Hno.
    rewrite trigger_flow_unfold.
    destruct (validate job_id nb py jar pl sql dbt w) as [w1 [e|parsed]];
      cbn [fst] in *; [assumption|].
    now rewrite trigger_dict_cases, Hint.
Qed.

(** ** Empty payloads *)

Lemma parse_payload_absent_if_empty (raw : option string)
      (isinstance_exp : json -> bool) (err : string) :
  parse_payload (absent_if_empty raw) isinstance_exp err =
  parse_payload raw isinstance_exp err.
Proof.
  destruct raw as [[|c s]|]; reflexivity.
Qed.

(** C10.  A payload given as the empty string is handled as an absent
    payload: its block decodes nothing, raises nothing and leaves the parsed
    value None, and the whole trigger call behaves as it does with the
    payload absent. *)
Theorem empty_payload_is_absent :
  (forall (isinstance_exp : json -> bool) (err : string) (w : world B),
      parse_payload (Some EmptyString) isinstance_exp err w = (w, inr None)) /\
  (forall (k : payload),
      payload_verdict k (Some EmptyString) = inr None /\
      decode_event (Some EmptyString) = []) /\
  (forall (job_id : string) (nb py jar pl sql dbt tok : option string),
      trigger_databricks_flow job_id
        (absent_if_empty nb) (absent_if_empty py) (absent_if_empty jar)
        (absent_if_empty pl) (absent_if_empty sql) (absent_if_empty dbt) tok =
      trigger_databricks_flow job_id nb py jar pl sql dbt tok).
Proof.
  split; [reflexivity|]. split; [intros k; split; reflexivity|].
  intros job_id nb py jar pl sql dbt tok.
  unfold trigger_databricks_flow, trigger_result, validate, parse_parameters.
  now rewrite !parse_payload_absent_if_empty.
Qed.

(** ** Wrong shapes and the order of the checks *)

Lemma wrong_shape_verdict (k : payload) (text : string) (v : json) :
  text <> EmptyString ->
  json_loads text = inr v ->
  isinstance_expected k v = false ->
  payload_verdict k (Some text) = inl (ValueError (shape_error k)).
Proof.
  intros Hne Hload Hshape. unfold payload_verdict, truthy_str.
  destruct (String.eqb_spec text EmptyString); [contradiction|]. cbn [negb].
  now rewrite Hload, Hshape.
Qed.

Lemma wrap_shape_error (k : payload) :
  wrap_decode_error (ValueError (shape_error k)) = ValueError (shape_error k).
Proof. reflexivity. Qed.

(** A trigger call that fails validation raises what validation raised and
    makes no job call. *)
Lemma trigger_flow_invalid (job_id : string)
      (nb py jar pl sql dbt tok : option string) (w w1 : world B) (e : exn) :
  validate job_id nb py jar pl sql dbt w = (w1, inl e) ->
  trigger_databricks_flow job_id nb py jar pl sql dbt tok w = (w1, inl e) /\
  remote_calls (trace w1) = remote_calls (trace w).
Proof.
  intros Hval.
  pose proof (validate_no_remote job_id nb py jar pl sql dbt w) as Hno.
  rewrite Hval in Hno. now rewrite trigger_flow_unfold, Hval.
Qed.

(** C3, as the code has it.  With a job identifier that is present and a
    client that could be built, a non-empty payload that decodes to the
    wrong shape makes the call raise a ValueError and no job call is made.
    When no payload declared before it is invalid, the message of the error
    is that of the payload: its name and the shape expected of it. *)
Theorem wrong_shape_is_rejected (job_id : string)
        (nb py jar pl sql dbt tok : option string) (w : world B) (b1 : B)
        (pre post : list (payload * option string))
        (k : payload) (text : string) (v : json) :
  job_id_missing job_id = false ->
  sdk_WorkspaceClient (backend w) = (b1, inr tt) ->
  declared nb py jar pl sql dbt = (pre ++ (k, Some text) :: post)%list ->
  text <> EmptyString ->
  json_loads text = inr v ->
  isinstance_expected k v = false ->
  (exists w' msg,
      trigger_databricks_flow job_id nb py jar pl sql dbt tok w =
      (w', inl (ValueError msg)) /\
      remote_calls (trace w') = remote_calls (trace w)) /\
  (Forall (fun kr => payload_valid (fst kr) (snd kr)) pre ->
   exists w',
     trigger_databricks_flow job_id nb py jar pl sql dbt tok w =
     (w', inl (ValueError (shape_error k))) /\
     remote_calls (trace w') = remote_calls (trace w)).
Proof.
  intros Hjob Hclient Hdecl Hne Hload Hshape.
  pose proof (wrong_shape_verdict k text v Hne Hload Hshape) as Hk.
  pose proof (validate_cases job_id nb py jar pl sql dbt w) as Hval.
  rewrite Hjob, Hclient in Hval.
  split.
  - assert (Hin : In (k, Some text) (declared nb py jar pl sql dbt))
      by (rewrite Hdecl; apply in_elt).
    destruct (normalize_rejects _ _ _ _ Hin Hk)
      as (k' & raw' & e' & _ & Hk' & Hn).
    rewrite Hn in Hval.
    destruct (verdict_is_value_error k' raw' e' Hk') as [msg Hmsg].
    rewrite Hmsg in Hval.
    destruct (trigger_flow_invalid _ _ _ _ _ _ _ tok _ _ _ Hval) as [Hflow Hno].
    eauto.
  - intros Hpre.
    rewrite Hdecl, (normalize_first_invalid pre post k (Some text) _ Hpre Hk)
      in Hval.
    cbn [fst snd] in Hval. rewrite wrap_shape_error in Hval.
    destruct (trigger_flow_invalid _ _ _ _ _ _ _ tok _ _ _ Hval) as [Hflow Hno].
    eauto.
Qed.

(** C9, as the code has it.  The normaliser checks the payloads in the
    order notebook, python, jar, pipeline, sql, dbt and stops at the first
    invalid one: the decodings performed are those of the payloads before
    it and its own, so the outcome does not depend on the payloads after
    it.  The error is a ValueError; for a wrong shape its message names the
    payload, for a text that does not decode it is the decoder's message
    behind a fixed prefix. *)
Theorem normalizer_short_circuits
        (nb py jar pl sql dbt : option string) (w : world B)
        (pre post : list (payload * option string))
        (k : payload) (raw : option string) (e : exn) :
  declared nb py jar pl sql dbt = (pre ++ (k, raw) :: post)%list ->
  Forall (fun kr => payload_valid (fst kr) (snd kr)) pre ->
  payload_verdict k raw = inl e ->
  parse_parameters nb py jar pl sql dbt w =
  (mkWorld (backend w)
           (trace w ++ flat_map (fun kr => decode_event (snd kr)) pre
                    ++ decode_event raw),
   inl (wrap_decode_error e)) /\
  (wrap_decode_error e = ValueError (shape_error k) \/
   exists text msg,
     raw = Some text /\ json_loads text = inl msg /\
     wrap_decode_error e =
     ValueError ("Invalid JSON in parameters: " ++ msg)) /\
  (forall (nb' py' jar' pl' sql' dbt' : option string)
          (post' : list (payload * option string)),
      declared nb' py' jar' pl' sql' dbt' = (pre ++ (k, raw) :: post')%list ->
      parse_parameters nb' py' jar' pl' sql' dbt' w =
      parse_parameters nb py jar pl sql dbt w).
Proof.
  intros Hdecl Hpre Hk.
  assert (Hrun :
            forall nb' py' jar' pl' sql' dbt' post',
              declared nb' py' jar' pl' sql' dbt' =
              (pre ++ (k, raw) :: post')%list ->
              parse_parameters nb' py' jar' pl' sql' dbt' w =
              (mkWorld (backend w)
                       (trace w ++
                        flat_map (fun kr => decode_event (snd kr)) pre ++
                        decode_event raw),
               inl (wrap_decode_error e))).
  { intros nb' py' jar' pl' sql' dbt' post' Hdecl'.
    rewrite parse_parameters_normalize, Hdecl'.
    now rewrite (normalize_first_invalid pre post' k raw e Hpre Hk). }
  split; [now apply Hrun with (post' := post)|]. split.
  - unfold payload_verdict in Hk.
    destruct raw as [text|]; [|discriminate].
    destruct (truthy_str text); [|discriminate].
    destruct (json_loads text) as [msg|v] eqn:Hload.
    + injection Hk as <-. right. exists text, msg. repeat split; assumption.
    + destruct (isinstance_expected k v); [discriminate|].
      injection Hk as <-. left. reflexivity.
  - intros nb' py' jar' pl' sql' dbt' post' Hdecl'.
    rewrite (Hrun _ _ _ _ _ _ _ Hdecl').
    symmetry. now apply Hrun with (post' := post).
Qed.

(** ** The monitor *)

Lemma poll_once_cases (run_id : json) (poll_interval : Z) (w : world B) :
  poll_once run_id poll_interval w =
  match sql_get_job_status (backend w) run_id with
  | (b1, inl e) => (mkWorld b1 (trace w ++ [EvSqlStatus run_id]), inl e)
  | (b1, inr text) =>
      let w1 := mkWorld b1 (trace w ++ [EvSqlStatus run_id; EvLoads text]) in
      match json_loads text with
      | inl msg => (w1, inl (JSONDecodeError msg))
      | inr status_dict =>
          match run_completed status_dict with
          | inl e => (w1, inl e)
          | inr true => (w1, inr (Some status_dict))
          | inr false =>
              if poll_interval <? 0
              then (w1, inl (ValueError "sleep length must be non-negative"))
              else (mkWorld b1 (trace w ++ [EvSqlStatus run_id; EvLoads text;
                                            EvSleep poll_interval]),
                    inr None)
          end
      end
  end.
Proof.
  unfold poll_once, bind, call, loads, lift, sleep, ret, raise.
  destruct (sql_get_job_status (backend w) run_id) as [b1 [e|text]];
    [reflexivity|].
  unfold call; cbn [backend trace]. rewrite <- app_assoc. cbn [app].
  destruct (json_loads text) as [msg|status_dict]; [reflexivity|].
  destruct (run_completed status_dict) as [e|[|]]; try reflexivity.
  destruct (poll_interval <? 0); [reflexivity|].
  unfold call; cbn [backend trace]. rewrite <- app_assoc. reflexivity.
Qed.

(** Every turn of the loop starts with the status query. *)
Lemma poll_once_queries_first (run_id : json) (poll_interval : Z) (w : world B) :
  exists rest,
    trace (fst (poll_once run_id poll_interval w)) =
    (trace w ++ EvSqlStatus run_id :: rest)%list.
Proof.
  rewrite poll_once_cases.
  destruct (sql_get_job_status (backend w) run_id) as [b1 [e|text]];
    [eexists; reflexivity|].
  cbn zeta.
  destruct (json_loads text) as [msg|status_dict]; [eexists; reflexivity|].
  destruct (run_completed status_dict) as [e|[|]]; try (eexists; reflexivity).
  destruct (poll_interval <? 0); eexists; reflexivity.
Qed.

Lemma monitor_loop_step (fuel : nat) (run_id : json)
      (poll_interval max_wait elapsed : Z) (w : world B) :
  elapsed < max_wait ->
  monitor_loop (S fuel) run_id poll_interval max_wait elapsed w =
  match poll_once run_id poll_interval w with
  | (w', inl e) => Some (w', inl e)
  | (w', inr (Some status_dict)) => Some (w', inr (Some status_dict))
  | (w', inr None) =>
      monitor_loop fuel run_id poll_interval max_wait
                   (elapsed + poll_interval) w'
  end.
Proof.
  intros Hlt. cbn [monitor_loop].
  destruct (Z.ltb_spec elapsed max_wait); [reflexivity|lia].
Qed.

Lemma monitor_loop_exit (fuel : nat) (run_id : json)
      (poll_interval max_wait elapsed : Z) (w : world B) :
  max_wait <= elapsed ->
  monitor_loop fuel run_id poll_interval max_wait elapsed w =
  Some (w, inr None).
Proof.
  intros Hge.
  destruct fuel; cbn [monitor_loop];
    destruct (Z.ltb_spec elapsed max_wait); solve [reflexivity|lia].
Qed.

(** Fuel for [max_wait / poll_interval + 1] turns covers the budget. *)
Lemma fuel_covers (poll_interval max_wait : Z) (fuel : nat) :
  0 < poll_interval -> 0 < max_wait ->
  (Z.to_nat (max_wait / poll_interval) < fuel)%nat ->
  max_wait - 0 <= Z.of_nat fuel * poll_interval.
Proof.
  intros Hp Hm Hfuel.
  pose proof (Z.div_pos max_wait poll_interval ltac:(lia) Hp) as Hq.
  pose proof (Z.mul_succ_div_gt max_wait poll_interval Hp) as Hgt.
  assert (max_wait / poll_interval + 1 <= Z.of_nat fuel) by lia.
  nia.
Qed.

(** With a positive interval the loop ends, whatever the backend answers. *)
Lemma monitor_loop_total (run_id : json) (poll_interval max_wait : Z) :
  0 < poll_interval ->
  forall (fuel : nat) (elapsed : Z) (w : world B),
    max_wait - elapsed <= Z.of_nat fuel * poll_interval ->
    exists w' r rest,
      monitor_loop fuel run_id poll_interval max_wait elapsed w = Some (w', r) /\
      trace w' = (trace w ++ rest)%list.
Proof.
  intros Hp fuel.
  induction fuel as [|fuel IH]; intros elapsed w Hfuel.
  - rewrite monitor_loop_exit by (cbn in Hfuel; lia).
    exists w, (inr None), []. now rewrite app_nil_r.
  - destruct (Z.lt_ge_cases elapsed max_wait) as [Hlt|Hge].
    + rewrite monitor_loop_step by assumption.
      destruct (poll_once_queries_first run_id poll_interval w) as [rest1 Htr].
      destruct (poll_once run_id poll_interval w) as [w1 [e|[status_dict|]]];
        cbn [fst] in Htr; try (do 3 eexists; split; [reflexivity|eassumption]).
      destruct (IH (elapsed + poll_interval) w1) as (w' & r & rest2 & Hrun & Htr').
      { rewrite Nat2Z.inj_succ, Z.mul_succ_l in Hfuel. lia. }
      exists w', r, (EvSqlStatus run_id :: rest1 ++ rest2)%list.
      split; [assumption|].
      rewrite Htr', Htr, <- app_assoc. reflexivity.
    + rewrite monitor_loop_exit by assumption.
      exists w, (inr None), []. now rewrite app_nil_r.
Qed.

(** What a status answer that reports a terminal state makes of the test of
    lines 350-358. *)
Lemma terminal_run_completed (status_dict : json) (l : string) :
  reports_state status_dict l ->
  In l terminal_states ->
  run_completed status_dict = inr true.
Proof.
  intros (fields & success & state_fields & -> & Hs & Ht & Hst & Hl) Hin.
  unfold run_completed, py_get. rewrite Hs, Ht, Hst, Hl.
  destruct (assoc "result_state" state_fields);
    (destruct Hin as [<-|[<-|[<-|[]]]]; reflexivity).
Qed.

(** A state outside the terminal set, recognised or not, keeps the loop
    going, and so does an answer that reports unsuccess. *)
Lemma other_state_not_completed (status_dict : json) (l : string) :
  reports_state status_dict l ->
  ~ In l terminal_states ->
  run_completed status_dict = inr false.
Proof.
  intros (fields & success & state_fields & -> & Hs & Ht & Hst & Hl) Hnot.
  unfold run_completed, py_get. rewrite Hs, Ht, Hst, Hl.
  assert (Hin : py_in (JStr l) ["TERMINATED"; "SKIPPED"; "INTERNAL_ERROR"] = false).
  { cbn [py_in existsb]. unfold terminal_states in Hnot.
    destruct (String.eqb_spec l "TERMINATED"); [subst; exfalso; apply Hnot; cbn; auto|].
    destruct (String.eqb_spec l "SKIPPED"); [subst; exfalso; apply Hnot; cbn; auto|].
    destruct (String.eqb_spec l "INTERNAL_ERROR"); [subst; exfalso; apply Hnot; cbn; auto|].
    reflexivity. }
  rewrite Hin. destruct (assoc "result_state" state_fields); reflexivity.
Qed.

Lemma unsuccess_not_completed (fields : list (string * json)) :
  truthy (match assoc "success" fields with Some v => v | None => JNull end)
  = false ->
  run_completed (JDict fields) = inr false.
Proof.
  intros Hs. unfold run_completed, py_get. now rewrite Hs.
Qed.

(** C7.  With a positive interval and a positive budget the monitor ends and
    has then issued at least one status query: the test of the budget, made
    with nothing elapsed, lets the first query through.  When the first
    answer reports TERMINATED, SKIPPED or INTERNAL_ERROR, that answer is
    returned after the query and its decoding, with no sleep. *)
Theorem monitor_queries_at_least_once (run_id : json)
        (poll_interval max_wait : Z) (w : world B) :
  0 < poll_interval -> 0 < max_wait ->
  (forall fuel,
      (Z.to_nat (max_wait / poll_interval) < fuel)%nat ->
      exists w' r rest,
        monitor fuel run_id poll_interval max_wait w = Some (w', r) /\
        trace w' = (trace w ++ EvSqlStatus run_id :: rest)%list) /\
  (forall fuel b1 text status_dict l,
      sql_get_job_status (backend w) run_id = (b1, inr text) ->
      json_loads text = inr status_dict ->
      reports_state status_dict l ->
      In l terminal_states ->
      monitor (S fuel) run_id poll_interval max_wait w =
      Some (mkWorld b1 (trace w ++ [EvSqlStatus run_id; EvLoads text]),
            inr (Some status_dict)) /\
      sleeps [EvSqlStatus run_id; EvLoads text] = []).
Proof.
  intros Hp Hm. split.
  - intros fuel Hfuel.
    pose proof (fuel_covers poll_interval max_wait fuel Hp Hm Hfuel) as Hcov.
    destruct fuel as [|fuel]; [lia|].
    unfold monitor. rewrite monitor_loop_step by assumption.
    destruct (poll_once_queries_first run_id poll_interval w) as [rest1 Htr].
    destruct (poll_once run_id poll_interval w) as [w1 [e|[status_dict|]]];
      cbn [fst] in Htr; try (do 3 eexists; split; [reflexivity|eassumption]).
    destruct (monitor_loop_total run_id poll_interval max_wait Hp fuel
                                 (0 + poll_interval) w1)
      as (w' & r & rest2 & Hrun & Htr').
    { rewrite Nat2Z.inj_succ, Z.mul_succ_l in Hcov. lia. }
    exists w', r, (rest1 ++ rest2)%list. split; [assumption|].
    rewrite Htr', Htr, <- app_assoc. reflexivity.
  - intros fuel b1 text status_dict l Hq Hload Hrep Hterm.
    split; [|reflexivity].
    unfold monitor. rewrite monitor_loop_step by assumption.
    rewrite poll_once_cases, Hq. cbn zeta.
    now rewrite Hload, (terminal_run_completed status_dict l Hrep Hterm).
Qed.

Lemma status_queries_app (tr1 tr2 : list event) :
  status_queries (tr1 ++ tr2) = (status_queries tr1 ++ status_queries tr2)%list.
Proof. apply filter_app. Qed.

(** The loop against a backend that never reports a terminal state: it runs
    [n] turns, one query each, until the elapsed time reaches the budget. *)
Lemma never_terminal_loop (Inv : B -> Prop) (run_id : json)
      (poll_interval max_wait : Z) :
  0 < poll_interval ->
  (forall b, Inv b ->
             exists b' text status_dict,
               sql_get_job_status b run_id = (b', inr text) /\
               json_loads text = inr status_dict /\
               run_completed status_dict = inr false /\
               Inv b') ->
  forall (fuel : nat) (elapsed : Z) (w : world B),
    Inv (backend w) ->
    max_wait - elapsed <= Z.of_nat fuel * poll_interval ->
    exists w' n,
      monitor_loop fuel run_id poll_interval max_wait elapsed w =
      Some (w', inr None) /\
      Inv (backend w') /\
      List.length (status_queries (trace w')) =
      (List.length (status_queries (trace w)) + n)%nat /\
      (elapsed < max_wait ->
       max_wait <= elapsed + Z.of_nat n * poll_interval < max_wait + poll_interval) /\
      (max_wait <= elapsed -> n = 0%nat).
Proof.
  intros Hp Hstep fuel.
  induction fuel as [|fuel IH]; intros elapsed w Hinv Hfuel.
  - rewrite monitor_loop_exit by (cbn in Hfuel; lia).
    exists w, 0%nat. repeat split; auto; cbn in Hfuel; lia.
  - destruct (Z.lt_ge_cases elapsed max_wait) as [Hlt|Hge].
    + rewrite monitor_loop_step by assumption.
      destruct (Hstep _ Hinv) as (b' & text & d & Hq & Hload & Hrun & Hinv').
      rewrite poll_once_cases, Hq. cbn zeta. rewrite Hload, Hrun.
      destruct (Z.ltb_spec poll_interval 0); [lia|].
      destruct (IH (elapsed + poll_interval)
                   (mkWorld b' (trace w ++ [EvSqlStatus run_id; EvLoads text;
                                            EvSleep poll_interval]))
                   Hinv')
        as (w' & n & Hloop & Hinv'' & Hcount & Hin & Hout).
      { rewrite Nat2Z.inj_succ, Z.mul_succ_l in Hfuel. lia. }
      exists w', (S n). split; [assumption|]. split; [assumption|].
      split.
      * rewrite Hcount. cbn [trace]. rewrite status_queries_app, List.length_app.
        cbn. lia.
      * split; [|lia]. intros _.
        rewrite Nat2Z.inj_succ, Z.mul_succ_l.
        destruct (Z.lt_ge_cases (elapsed + poll_interval) max_wait) as [Hl|Hg].
        -- specialize (Hin Hl). lia.
        -- specialize (Hout Hg). subst n. cbn. lia.
    + rewrite monitor_loop_exit by assumption.
      exists w, 0%nat. repeat split; auto; lia.
Qed.

(** C8.  With a positive interval and a positive budget, against a backend
    whose status answers never make the loop return (the run is reported in a
    state outside TERMINATED, SKIPPED and INTERNAL_ERROR, recognised or not),
    the monitor ends with the timeout value None.  It has then issued [n]
    status queries, where [n] is the least number with
    [max_wait <= n * poll_interval]; in particular
    [max_wait / poll_interval <= n]. *)
Theorem monitor_times_out (Inv : B -> Prop) (run_id : json)
        (poll_interval max_wait : Z) (w : world B) :
  0 < poll_interval -> 0 < max_wait ->
  Inv (backend w) ->
  (forall b, Inv b ->
             exists b' text status_dict,
               sql_get_job_status b run_id = (b', inr text) /\
               json_loads text = inr status_dict /\
               run_completed status_dict = inr false /\
               Inv b') ->
  forall fuel,
    (Z.to_nat (max_wait / poll_interval) < fuel)%nat ->
    exists w' n,
      monitor fuel run_id poll_interval max_wait w = Some (w', inr None) /\
      List.length (status_queries (trace w')) =
      (List.length (status_queries (trace w)) + n)%nat /\
      max_wait / poll_interval <= Z.of_nat n /\
      max_wait <= Z.of_nat n * poll_interval < max_wait + poll_interval.
Proof.
  intros Hp Hm Hinv Hstep fuel Hfuel.
  pose proof (fuel_covers poll_interval max_wait fuel Hp Hm Hfuel) as Hcov.
  destruct (never_terminal_loop Inv run_id poll_interval max_wait Hp Hstep
                                fuel 0 w Hinv Hcov)
    as (w' & n & Hloop & _ & Hcount & Hin & _).
  specialize (Hin Hm). cbn [Z.add] in Hin.
  exists w', n. repeat split; try assumption; try lia.
  apply Z.div_le_upper_bound; lia.
Qed.

(** C6, as the code has it.  A status answer that reports unsuccess raises
    nothing: the turn sleeps for the interval and the loop goes on to its
    next turn, which queries again while the budget lasts. *)
Theorem failed_query_is_retried (run_id : json)
        (poll_interval max_wait : Z) (w : world B) (b1 : B) (text : string)
        (fields : list (string * json)) :
  0 <= poll_interval ->
  sql_get_job_status (backend w) run_id = (b1, inr text) ->
  json_loads text = inr (JDict fields) ->
  truthy (match assoc "success" fields with Some v => v | None => JNull end)
  = false ->
  poll_once run_id poll_interval w =
  (mkWorld b1 (trace w ++ [EvSqlStatus run_id; EvLoads text;
                           EvSleep poll_interval]),
   inr None) /\
  (forall fuel elapsed,
      elapsed < max_wait ->
      monitor_loop (S fuel) run_id poll_interval max_wait elapsed w =
      monitor_loop fuel run_id poll_interval max_wait (elapsed + poll_interval)
                   (mkWorld b1 (trace w ++ [EvSqlStatus run_id; EvLoads text;
                                            EvSleep poll_interval]))).
Proof.
  intros Hp Hq Hload Hfail.
  assert (Hturn :
            poll_once run_id poll_interval w =
            (mkWorld b1 (trace w ++ [EvSqlStatus run_id; EvLoads text;
                                     EvSleep poll_interval]),
             inr None)).
  { rewrite poll_once_cases, Hq. cbn zeta.
    rewrite Hload, (unsuccess_not_completed fields Hfail).
    destruct (Z.ltb_spec poll_interval 0); [lia|reflexivity]. }
  split; [assumption|].
  intros fuel elapsed Hlt.
  now rewrite monitor_loop_step, Hturn by assumption.
Qed.

(** C5, as the code has it.  The monitor does not check its configuration.
    With a budget that is zero or negative it returns the timeout value None
    at once, with no status query and no error.  With a positive budget the
    first status query is issued whatever the interval is, and the loop goes
    on from its answer. *)
Theorem monitor_unchecked_config (run_id : json)
        (poll_interval max_wait : Z) (w : world B) :
  poll_interval <= 0 \/ max_wait <= 0 ->
  (max_wait <= 0 ->
   forall fuel,
     monitor fuel run_id poll_interval max_wait w = Some (w, inr None)) /\
  (0 < max_wait ->
   (exists rest,
       trace (fst (poll_once run_id poll_interval w)) =
       (trace w ++ EvSqlStatus run_id :: rest)%list) /\
   forall fuel,
     monitor (S fuel) run_id poll_interval max_wait w =
     match poll_once run_id poll_interval w with
     | (w', inl e) => Some (w', inl e)
     | (w', inr (Some status_dict)) => Some (w', inr (Some status_dict))
     | (w', inr None) =>
         monitor_loop fuel run_id poll_interval max_wait poll_interval w'
     end).
Proof.
  intros _. split.
  - intros Hm fuel. unfold monitor. now apply monitor_loop_exit.
  - intros Hm. split; [apply poll_once_queries_first|].
    intros fuel. unfold monitor. now rewrite monitor_loop_step.
Qed.

End Properties.

(** * The theorems on the scripted backend *)

Lemma trigger_remote_failure_returned_witness :
  validate "999999999" None None None None None None (initial refusing) =
  (mkWorld refusing [EvClient], inr (None, None, None, None, None, None)) /\
  trigger_databricks_flow "999999999" None None None None None None None
                          (initial refusing) =
  (mkWorld refusing
           [EvClient;
            EvRunNow (mkRunNow 999999999 None None None None None None None)],
   inr (compact_dumps
          (error_result "999999999"
             (mkExn "ResourceDoesNotExist" "Job 999999999 does not exist.")))).
Proof.
  split; [vm_compute; reflexivity|].
  apply (proj1 (proj2
           (trigger_remote_failure_returned (P := mock_platform)
              "999999999" None None None None None None None
              (initial refusing) (mkWorld refusing [EvClient])
              (None, None, None, None, None, None)
              ltac:(vm_compute; reflexivity)))
           999999999 refusing); vm_compute; reflexivity.
Defined.

Lemma invalid_job_id_no_remote_call_witness :
  (job_id_missing (B := Mock) "abc" = true \/
   exists msg, py_int (B := Mock) "abc" = inl msg) /\
  remote_calls
    (trace (fst (trigger_databricks_flow "abc" None None None None None None
                                         None (initial healthy)))) = [] /\
  trigger_databricks_flow "abc" None None None None None None None
                          (initial healthy) =
  (mkWorld healthy [EvClient],
   inr (compact_dumps
          (error_result "abc"
             (ValueError "invalid literal for int() with base 10: 'abc'")))).
Proof.
  assert (Hbad : job_id_missing (B := Mock) "abc" = true \/
                 exists msg, py_int (B := Mock) "abc" = inl msg).
  { right. eexists. vm_compute. reflexivity. }
  split; [exact Hbad|].
  destruct (invalid_job_id_no_remote_call (P := mock_platform)
              "abc" None None None None None None None (initial healthy) Hbad)
    as (Hno & _ & Hret).
  split; [exact Hno|].
  apply (Hret "invalid literal for int() with base 10: 'abc'"
              (mkWorld healthy [EvClient])
              (None, None, None, None, None, None));
    vm_compute; reflexivity.
Defined.

(** C2 fails for an identifier that is not a number: the call does not raise,
    it returns. *)
Lemma non_numeric_job_id_not_raised :
  job_id_missing (B := Mock) "abc" = false /\
  py_int (B := Mock) "abc" = inl "invalid literal for int() with base 10: 'abc'" /\
  (forall w e,
      trigger_databricks_flow "abc" None None None None None None None
                              (initial healthy) <> (w, inl e)) /\
  exists text,
    trigger_databricks_flow "abc" None None None None None None None
                            (initial healthy) =
    (mkWorld healthy [EvClient], inr text).
Proof.
  split; [vm_compute; reflexivity|]. split; [vm_compute; reflexivity|]. split.
  - intros w e H. vm_compute in H. discriminate H.
  - eexists. vm_compute. reflexivity.
Qed.

Lemma wrong_shape_is_rejected_witness :
  Forall (fun kr => payload_valid (B := Mock) (fst kr) (snd kr))
         [(Notebook, Some "{'env': 'dev'}")] /\
  exists w',
    trigger_databricks_flow "12" (Some "{'env': 'dev'}") (Some "{}") None None
                            None None None (initial healthy) =
    (w', inl (ValueError "python_params must be a JSON array")) /\
    remote_calls (trace w') = [].
Proof.
  assert (Hpre : Forall (fun kr => payload_valid (B := Mock) (fst kr) (snd kr))
                        [(Notebook, Some "{'env': 'dev'}")]).
  { constructor; [|constructor]. eexists. vm_compute. reflexivity. }
  split; [exact Hpre|].
  refine (proj2 (wrong_shape_is_rejected (P := mock_platform)
                   "12" (Some "{'env': 'dev'}") (Some "{}") None None None None
                   None (initial healthy) healthy
                   [(Notebook, Some "{'env': 'dev'}")]
                   [(Jar, None); (Pipeline, None); (Sql, None); (Dbt, None)]
                   Python "{}" (JDict []) _ _ _ _ _ _) Hpre);
    solve [vm_compute; reflexivity | discriminate].
Defined.

(** C3 fails where it says the error names the actual shape: a list and a
    number given for the notebook parameters raise the same error, whose
    message speaks of the expected object only. *)
Lemma shape_error_omits_actual_shape :
  json_loads (B := Mock) "[]" = inr (JList []) /\
  json_loads (B := Mock) "7" = inr (JInt 7) /\
  trigger_databricks_flow "12" (Some "[]") None None None None None None
                          (initial healthy) =
  (mkWorld healthy [EvClient; EvLoads "[]"], inl (ValueError notebook_shape_error)) /\
  trigger_databricks_flow "12" (Some "7") None None None None None None
                          (initial healthy) =
  (mkWorld healthy [EvClient; EvLoads "7"], inl (ValueError notebook_shape_error)) /\
  occurs_in "object" notebook_shape_error = true /\
  occurs_in "array" notebook_shape_error = false /\
  occurs_in "list" notebook_shape_error = false /\
  occurs_in "sequence" notebook_shape_error = false /\
  occurs_in "int" notebook_shape_error = false.
Proof. vm_compute. repeat split. Qed.


Lemma normalizer_short_circuits_witness :
  Forall (fun kr => payload_valid (B := Mock) (fst kr) (snd kr))
         [(Notebook, Some "{}")] /\
  payload_verdict (B := Mock) Python (Some "oops") =
  inl (JSONDecodeError "Expecting value: line 1 column 1 (char 0)") /\
  parse_parameters (Some "{}") (Some "oops") (Some "[]") None None None
                   (initial healthy) =
  (mkWorld healthy [EvLoads "{}"; EvLoads "oops"],
   inl (ValueError decode_failure)).
Proof.
  assert (Hpre : Forall (fun kr => payload_valid (B := Mock) (fst kr) (snd kr))
                        [(Notebook, Some "{}")]).
  { constructor; [|constructor]. eexists. vm_compute. reflexivity. }
  assert (Hk : payload_verdict (B := Mock) Python (Some "oops") =
               inl (JSONDecodeError "Expecting value: line 1 column 1 (char 0)")).
  { vm_compute. reflexivity. }
  split; [exact Hpre|]. split; [exact Hk|].
  exact (proj1 (normalizer_short_circuits (P := mock_platform)
                  (Some "{}") (Some "oops") (Some "[]") None None None
                  (initial healthy)
                  [(Notebook, Some "{}")]
                  [(Jar, Some "[]"); (Pipeline, None); (Sql, None); (Dbt, None)]
                  Python (Some "oops") _ eq_refl Hpre Hk)).
Defined.

(** C9 fails where it says the error names the payload: a text that does not
    decode raises the same error whether it is the notebook or the python
    payload, and the message holds the name of no payload. *)
Lemma decode_error_names_no_payload :
  payload_verdict (B := Mock) Notebook (Some "oops") =
  inl (JSONDecodeError "Expecting value: line 1 column 1 (char 0)") /\
  payload_verdict (B := Mock) Python (Some "oops") =
  inl (JSONDecodeError "Expecting value: line 1 column 1 (char 0)") /\
  parse_parameters (Some "oops") None None None None None (initial healthy) =
  (mkWorld healthy [EvLoads "oops"], inl (ValueError decode_failure)) /\
  parse_parameters None (Some "oops") None None None None (initial healthy) =
  (mkWorld healthy [EvLoads "oops"], inl (ValueError decode_failure)) /\
  forallb (fun k => negb (occurs_in (payload_name k) decode_failure))
          [Notebook; Python; Jar; Pipeline; Sql; Dbt] = true.
Proof. vm_compute. repeat split. Qed.

Lemma monitor_unchecked_config_witness :
  (30 <= 0 \/ 0 <= 0) /\
  monitor 5 (JInt 555) 30 0 (initial healthy) =
  Some (initial healthy, inr None).
Proof.
  assert (Hcfg : 30 <= 0 \/ 0 <= 0) by (right; lia).
  split; [exact Hcfg|].
  apply (proj1 (monitor_unchecked_config (P := mock_platform)
                  (JInt 555) 30 0 (initial healthy) Hcfg)).
  lia.
Defined.

(** C5 fails: with a budget of zero the monitor returns None and raises
    nothing, and with an interval of zero it queries the backend (twice
    here) and returns the status it finds. *)
Lemma non_positive_config_not_rejected :
  monitor 5 (JInt 555) 30 0 (initial healthy) =
  Some (initial healthy, inr None) /\
  monitor 5 (JInt 555) 0 5 (initial healthy) =
  Some (mkWorld (answering [text_terminated])
                [EvSqlStatus (JInt 555); EvLoads text_running; EvSleep 0;
                 EvSqlStatus (JInt 555); EvLoads text_terminated],
        inr (Some status_terminated)) /\
  (forall fuel w e,
      monitor fuel (JInt 555) 30 0 (initial healthy) <> Some (w, inl e)) /\
  (forall w e,
      monitor 5 (JInt 555) 0 5 (initial healthy) <> Some (w, inl e)).
Proof.
  split; [vm_compute; reflexivity|]. split; [vm_compute; reflexivity|]. split.
  - intros fuel w e H. destruct fuel; vm_compute in H; discriminate H.
  - intros w e H. vm_compute in H. discriminate H.
Qed.

Lemma failed_query_is_retried_witness :
  sql_get_job_status (backend (initial (answering [text_failed])))
                     (JInt 555) =
  (answering [text_failed], inr text_failed) /\
  poll_once (JInt 555) 1 (initial (answering [text_failed])) =
  (mkWorld (answering [text_failed])
           [EvSqlStatus (JInt 555); EvLoads text_failed; EvSleep 1],
   inr None).
Proof.
  split; [vm_compute; reflexivity|].
  apply (proj1 (failed_query_is_retried (P := mock_platform)
                  (JInt 555) 1 2 (initial (answering [text_failed]))
                  (answering [text_failed]) text_failed
                  [("success", JBool false)]
                  ltac:(lia)
                  ltac:(vm_compute; reflexivity)
                  ltac:(vm_compute; reflexivity)
                  ltac:(vm_compute; reflexivity))).
Defined.

(** C6 fails: status queries that report unsuccess are followed by a sleep
    and a new query, and the call ends with the timeout value None, not with
    an error. *)
Lemma failed_query_not_surfaced :
  json_loads (B := Mock) text_failed = inr (JDict [("success", JBool false)]) /\
  monitor 5 (JInt 555) 1 2 (initial (answering [text_failed])) =
  Some (mkWorld (answering [text_failed])
                [EvSqlStatus (JInt 555); EvLoads text_failed; EvSleep 1;
                 EvSqlStatus (JInt 555); EvLoads text_failed; EvSleep 1],
        inr None) /\
  (forall w e,
      monitor 5 (JInt 555) 1 2 (initial (answering [text_failed]))
      <> Some (w, inl e)).
Proof.
  split; [vm_compute; reflexivity|]. split; [vm_compute; reflexivity|].
  intros w e H. vm_compute in H. discriminate H.
Qed.

Lemma monitor_queries_at_least_once_witness :
  (0 < 1 /\ 0 < 5) /\
  monitor 1 (JInt 555) 1 5 (initial (answering [text_terminated])) =
  Some (mkWorld (answering [text_terminated])
                [EvSqlStatus (JInt 555); EvLoads text_terminated],
        inr (Some status_terminated)) /\
  exists w' r rest,
    monitor 6 (JInt 555) 1 5 (initial healthy) = Some (w', r) /\
    trace w' = (trace (initial healthy) ++ EvSqlStatus (JInt 555) :: rest)%list.
Proof.
  assert (Hp : 0 < 1) by lia. assert (Hm : 0 < 5) by lia.
  split; [split; assumption|]. split.
  - apply (proj2 (monitor_queries_at_least_once (P := mock_platform)
                    (JInt 555) 1 5
                    (initial (answering [text_terminated])) Hp Hm)
                 0%nat (answering [text_terminated]) text_terminated
                 status_terminated "TERMINATED").
    + vm_compute; reflexivity.
    + vm_compute; reflexivity.
    + do 3 eexists. repeat split; vm_compute; reflexivity.
    + left; reflexivity.
  - apply (proj1 (monitor_queries_at_least_once (P := mock_platform)
                    (JInt 555) 1 5 (initial healthy) Hp Hm) 6%nat).
    vm_compute. lia.
Defined.

Lemma monitor_times_out_witness :
  (0 < 2 /\ 0 < 5) /\
  exists w' n,
    monitor 3 (JInt 555) 2 5 (initial (answering [text_running])) =
    Some (w', inr None) /\
    List.length (status_queries (trace w')) =
    (List.length (status_queries
                    (trace (initial (answering [text_running])))) + n)%nat /\
    5 / 2 <= Z.of_nat n /\
    5 <= Z.of_nat n * 2 < 5 + 2.
Proof.
  assert (Hp : 0 < 2) by lia. assert (Hm : 0 < 5) by lia.
  split; [split; assumption|].
  apply (monitor_times_out (P := mock_platform)
           (fun b => b = answering [text_running])
           (JInt 555) 2 5 (initial (answering [text_running])) Hp Hm).
  - reflexivity.
  - intros b ->.
    exists (answering [text_running]), text_running,
      (JDict [("success", JBool true);
              ("state", JDict [("life_cycle_state", JStr "RUNNING")])]).
    repeat split; vm_compute; reflexivity.
  - vm_compute. lia.
Defined.

(** * More properties of the trigger *)

Section TriggerProperties.
Context {B : Type} `{P : Platform B}.

(** X1.  Whatever its arguments and whatever the backend answers, a trigger
    call makes no job call, or the one start-run call of its validated
    request, which raised, or that start-run call followed by one get-run
    call for the run identifier this very start-run call answered.  It never
    repeats a call and never asks for a run it did not start. *)
Theorem trigger_job_calls_shape (job_id : string)
        (nb py jar pl sql dbt tok : option string) (w : world B) :
  exists calls,
    remote_calls
      (trace (fst (trigger_databricks_flow job_id nb py jar pl sql dbt tok w))) =
    (remote_calls (trace w) ++ calls)%list /\
    (calls = [] \/
     (exists w1 parsed job_key b2 e,
         validate job_id nb py jar pl sql dbt w = (w1, inr parsed) /\
         py_int job_id = inr job_key /\
         sdk_run_now (backend w1) (run_now_request job_key parsed tok) =
         (b2, inl e) /\
         calls = [EvRunNow (run_now_request job_key parsed tok)]) \/
     (exists w1 parsed job_key b2 resp,
         validate job_id nb py jar pl sql dbt w = (w1, inr parsed) /\
         py_int job_id = inr job_key /\
         sdk_run_now (backend w1) (run_now_request job_key parsed tok) =
         (b2, inr resp) /\
         calls = [EvRunNow (run_now_request job_key parsed tok);
                  EvGetRun (resp_run_id resp)])).
Proof.
  rewrite trigger_flow_unfold.
  pose proof (validate_no_remote job_id nb py jar pl sql dbt w) as Hno.
  destruct (validate job_id nb py jar pl sql dbt w) as [w1 [e|parsed]] eqn:Hval;
    cbn [fst] in *.
  { exists []. rewrite app_nil_r. split; [assumption|now left]. }
  rewrite trigger_dict_cases.
  destruct (py_int job_id) as [msg|job_key] eqn:Hint; cbn [fst].
  { exists []. rewrite app_nil_r. split; [assumption|now left]. }
  cbn zeta.
  destruct (sdk_run_now (backend w1) (run_now_request job_key parsed tok))
    as [b2 [e|resp]] eqn:Hrun; cbn [fst trace].
  { exists [EvRunNow (run_now_request job_key parsed tok)].
    rewrite remote_calls_app, Hno. split; [reflexivity|].
    right; left. exists w1, parsed, job_key, b2, e. repeat split; auto. }
  destruct (sdk_get_run b2 (resp_run_id resp)) as [b3 [e|run]];
    cbn [fst trace];
    (exists [EvRunNow (run_now_request job_key parsed tok);
             EvGetRun (resp_run_id resp)];
     rewrite remote_calls_app, Hno; split; [reflexivity|];
     right; right; exists w1, parsed, job_key, b2, resp;
     repeat split; auto).
Qed.

(** X2.  When the job id is present and is a number, the client is built and
    every payload is valid, the effects of the call are, in this order: the
    client construction, the decoding of the non-empty payloads in
    declaration order, and the start-run call.  The request carries the
    numeric job key, for each payload its decoded value (None for an absent
    or empty one) and the caller's idempotency token unchanged (None when
    none was given); the only thing that can follow is the get-run call. *)
Theorem trigger_request_contents (job_id : string)
        (nb py jar pl sql dbt tok : option string) (w : world B) (b1 : B)
        (job_key : Z) (v1 v2 v3 v4 v5 v6 : option json) :
  job_id_missing job_id = false ->
  sdk_WorkspaceClient (backend w) = (b1, inr tt) ->
  payload_verdict Notebook nb = inr v1 ->
  payload_verdict Python py = inr v2 ->
  payload_verdict Jar jar = inr v3 ->
  payload_verdict Pipeline pl = inr v4 ->
  payload_verdict Sql sql = inr v5 ->
  payload_verdict Dbt dbt = inr v6 ->
  py_int job_id = inr job_key ->
  exists rest,
    trace (fst (trigger_databricks_flow job_id nb py jar pl sql dbt tok w)) =
    (trace w ++
     EvClient ::
     decode_event nb ++ decode_event py ++ decode_event jar ++
     decode_event pl ++ decode_event sql ++ decode_event dbt ++
     EvRunNow (mkRunNow job_key v1 v2 v3 v4 v5 v6 tok) :: rest)%list /\
    (rest = [] \/ exists rid, rest = [EvGetRun rid]).
Proof.
  intros Hjob Hclient H1 H2 H3 H4 H5 H6 Hint.
  rewrite trigger_flow_unfold, validate_cases, Hjob, Hclient.
  unfold declared. cbn [normalize]. rewrite H1, H2, H3, H4, H5, H6.
  cbn [fst snd tuple6 nth]. rewrite trigger_dict_cases, Hint.
  cbn zeta. cbn [backend trace]. rewrite !app_nil_r.
  change (run_now_request job_key (tuple6 [v1; v2; v3; v4; v5; v6]) tok)
    with (mkRunNow job_key v1 v2 v3 v4 v5 v6 tok).
  destruct (sdk_run_now b1 (mkRunNow job_key v1 v2 v3 v4 v5 v6 tok))
    as [b2 [e|resp]]; cbn [fst trace].
  { exists []. split; [|now left].
    rewrite <- !app_assoc. cbn [app]. rewrite <- !app_assoc. reflexivity. }
  destruct (sdk_get_run b2 (resp_run_id resp)) as [b3 [e|run]];
    cbn [fst trace];
    (exists [EvGetRun (resp_run_id resp)]; split; [|right; eexists; reflexivity];
     rewrite <- !app_assoc; cbn [app]; rewrite <- !app_assoc; reflexivity).
Qed.

(** X3.  The client is built outside the guarded block: when
    WorkspaceClient() raises, the trigger call raises that exception itself,
    after no decoding and no job call. *)
Theorem trigger_client_failure_raises (job_id : string)
        (nb py jar pl sql dbt tok : option string) (w : world B) (b1 : B)
        (e : exn) :
  job_id_missing job_id = false ->
  sdk_WorkspaceClient (backend w) = (b1, inl e) ->
  trigger_databricks_flow job_id nb py jar pl sql dbt tok w =
  (mkWorld b1 (trace w ++ [EvClient]), inl e).
Proof.
  intros Hjob Hclient.
  now rewrite trigger_flow_unfold, validate_cases, Hjob, Hclient.
Qed.


(** X5.  When validation passes, the job id is a number and both job calls
    answer, the call makes exactly these two calls and returns the failure
    dictionary for the KeyError of number_in_job, whatever the answers hold:
    the object run_now returns is bound to the run id only.  The run was
    started, and its id is not in the result. *)
Theorem trigger_answered_calls_report_failure (job_id : string)
        (nb py jar pl sql dbt tok : option string) (w w1 : world B)
        (parsed : option json * option json * option json *
                  option json * option json * option json)
        (job_key : Z) (b2 b3 : B) (resp : RunNowResponse) (run : Run) :
  validate job_id nb py jar pl sql dbt w = (w1, inr parsed) ->
  py_int job_id = inr job_key ->
  sdk_run_now (backend w1) (run_now_request job_key parsed tok) =
  (b2, inr resp) ->
  sdk_get_run b2 (resp_run_id resp) = (b3, inr run) ->
  trigger_result job_id nb py jar pl sql dbt tok w =
  (mkWorld b3 (trace w1 ++ [EvRunNow (run_now_request job_key parsed tok);
                            EvGetRun (resp_run_id resp)]),
   inr (error_result job_id (KeyError "'number_in_job'"))) /\
  py_get (error_result job_id (KeyError "'number_in_job'")) "error_type" JNull
  = inr (JStr "KeyError") /\
  py_get (error_result job_id (KeyError "'number_in_job'")) "run_id" JNull
  = inr JNull.
Proof.
  intros Hval Hint Hrun Hget. split; [|split; reflexivity].
  unfold trigger_result, bind. rewrite Hval, trigger_dict_cases, Hint.
  cbn zeta. now rewrite Hrun, Hget.
Qed.

(** X6.  No trigger call reports success: whatever the arguments and
    whatever the backend answers, a dictionary the call returns is the
    failure dictionary of some exception, with success false.  The state of
    the run, read after number_in_job, is never looked at. *)
Theorem trigger_never_reports_success (job_id : string)
        (nb py jar pl sql dbt tok : option string) (w w' : world B) (d : json) :
  trigger_result job_id nb py jar pl sql dbt tok w = (w', inr d) ->
  exists e,
    d = error_result job_id e /\
    py_get d "success" JNull = inr (JBool false).
Proof.
  intros Hres. unfold trigger_result, bind in Hres.
  destruct (validate job_id nb py jar pl sql dbt w) as [w1 [e|parsed]];
    [discriminate|].
  rewrite trigger_dict_cases in Hres.
  destruct (py_int job_id) as [msg|job_key].
  { injection Hres as <- <-. eexists; split; reflexivity. }
  cbn zeta in Hres.
  destruct (sdk_run_now _ _) as [b2 [e|resp]].
  { injection Hres as <- <-. eexists; split; reflexivity. }
  destruct (sdk_get_run _ _) as [b3 [e|run]];
    injection Hres as <- <-; eexists; split; reflexivity.
Qed.

End TriggerProperties.

(** * More properties of the monitor *)

Section MonitorProperties.
Context {B : Type} `{P : Platform B}.

Lemma last_cons {A : Type} (a d : A) (l : list A) :
  last (a :: l) d = last l a.
Proof.
  revert a d. induction l as [|x l IH]; intros a d; [reflexivity|].
  change (last (a :: x :: l) d) with (last (x :: l) d).
  now rewrite (IH x d), (IH x a).
Qed.

Lemma sleeps_app (tr1 tr2 : list event) :
  sleeps (tr1 ++ tr2) = (sleeps tr1 ++ sleeps tr2)%list.
Proof. apply filter_app. Qed.

Lemma polling_trace_counts (run_id : json) (poll_interval : Z)
      (answers : list (string * B)) :
  List.length (status_queries (polling_trace run_id poll_interval answers)) =
  List.length answers /\
  List.length (sleeps (polling_trace run_id poll_interval answers)) =
  List.length answers.
Proof.
  induction answers as [|a answers [IHq IHs]]; [split; reflexivity|].
  unfold polling_trace in *. cbn [flat_map].
  rewrite status_queries_app, sleeps_app, !List.length_app, IHq, IHs.
  split; reflexivity.
Qed.

(** The turns that get answers which do not end the loop: each one queries,
    decodes, sleeps and adds the interval to the elapsed time. *)
Lemma monitor_loop_keeps_polling (run_id : json) (poll_interval max_wait : Z)
      (answers : list (string * B)) :
  0 <= poll_interval ->
  forall (fuel : nat) (elapsed : Z) (w : world B),
    keeps_polling run_id (backend w) answers ->
    elapsed + Z.of_nat (List.length answers) * poll_interval < max_wait ->
    monitor_loop (List.length answers + fuel) run_id poll_interval max_wait
                 elapsed w =
    monitor_loop fuel run_id poll_interval max_wait
                 (elapsed + Z.of_nat (List.length answers) * poll_interval)
                 (mkWorld (backend_after (backend w) answers)
                          (trace w ++ polling_trace run_id poll_interval answers)).
Proof.
  intros Hp.
  induction answers as [|[text b'] answers IH]; intros fuel elapsed w Hchain Hlt.
  - cbn. rewrite Z.add_0_r, app_nil_r. now destruct w.
  - cbn [keeps_polling] in Hchain.
    destruct Hchain as (Hq & (d & Hload & Hrun) & Hrest).
    cbn [List.length] in *. rewrite Nat2Z.inj_succ, Z.mul_succ_l in *.
    cbn [Nat.add].
    assert (Hnn : 0 <= Z.of_nat (List.length answers) * poll_interval)
      by (apply Z.mul_nonneg_nonneg; lia).
    rewrite monitor_loop_step by lia.
    rewrite poll_once_cases, Hq. cbn zeta. rewrite Hload, Hrun.
    destruct (Z.ltb_spec poll_interval 0); [lia|].
    rewrite IH; [|exact Hrest|lia].
    cbn [backend trace]. unfold backend_after, polling_trace.
    cbn [map snd flat_map fst]. rewrite last_cons, <- app_assoc.
    f_equal. lia.
Qed.

(** X7.  When the first k status answers do not end the loop and the next one
    reports a terminal state, with the budget not used up by k sleeps, the
    monitor returns that answer: it has issued exactly k + 1 status queries
    and slept exactly k times, each time for the poll interval. *)
Theorem monitor_returns_first_terminal (run_id : json)
        (poll_interval max_wait : Z) (w : world B)
        (answers : list (string * B)) (b' : B) (text : string)
        (status_dict : json) (l : string) (fuel : nat) :
  0 <= poll_interval ->
  keeps_polling run_id (backend w) answers ->
  Z.of_nat (List.length answers) * poll_interval < max_wait ->
  sql_get_job_status (backend_after (backend w) answers) run_id =
  (b', inr text) ->
  json_loads text = inr status_dict ->
  reports_state status_dict l ->
  In l terminal_states ->
  (List.length answers < fuel)%nat ->
  let steps := (polling_trace run_id poll_interval answers ++
                [EvSqlStatus run_id; EvLoads text])%list in
  monitor fuel run_id poll_interval max_wait w =
  Some (mkWorld b' (trace w ++ steps), inr (Some status_dict)) /\
  List.length (status_queries steps) = S (List.length answers) /\
  List.length (sleeps steps) = List.length answers /\
  (forall ev, In ev (sleeps steps) -> ev = EvSleep poll_interval).
Proof.
  intros Hp Hchain Hlt Hq Hload Hrep Hterm Hfuel steps.
  destruct (polling_trace_counts run_id poll_interval answers) as [Hcq Hcs].
  split; [|split; [|split]].
  - replace fuel with (List.length answers + S (fuel - S (List.length answers)))%nat
      by lia.
    unfold monitor.
    rewrite monitor_loop_keeps_polling by (assumption || lia).
    rewrite monitor_loop_step by lia.
    rewrite poll_once_cases. cbn [backend trace]. rewrite Hq. cbn zeta.
    rewrite Hload, (terminal_run_completed status_dict l Hrep Hterm).
    unfold steps. now rewrite <- app_assoc.
  - unfold steps. rewrite status_queries_app, List.length_app, Hcq. cbn. lia.
  - unfold steps. rewrite sleeps_app, List.length_app, Hcs. cbn. lia.
  - unfold steps. rewrite sleeps_app. cbn. rewrite app_nil_r.
    intros ev Hin. unfold sleeps in Hin. apply filter_In in Hin.
    destruct Hin as [Hin Hsleep]. unfold polling_trace in Hin.
    apply in_flat_map in Hin. destruct Hin as (a & _ & Hin).
    cbn in Hin. destruct Hin as [<-|[<-|[<-|[]]]]; try discriminate.
    reflexivity.
Qed.

(** X8.  A status query that raises, or whose answer is not JSON, ends the
    monitor with that exception at once, on whatever turn it happens: the
    failing turn does not sleep and no further query is made. *)
Theorem monitor_query_exception_propagates (run_id : json)
        (poll_interval max_wait : Z) (w : world B)
        (answers : list (string * B)) (fuel : nat) :
  0 <= poll_interval ->
  keeps_polling run_id (backend w) answers ->
  Z.of_nat (List.length answers) * poll_interval < max_wait ->
  (List.length answers < fuel)%nat ->
  (forall b' e,
      sql_get_job_status (backend_after (backend w) answers) run_id =
      (b', inl e) ->
      monitor fuel run_id poll_interval max_wait w =
      Some (mkWorld b' (trace w ++ polling_trace run_id poll_interval answers
                                ++ [EvSqlStatus run_id]),
            inl e)) /\
  (forall b' text msg,
      sql_get_job_status (backend_after (backend w) answers) run_id =
      (b', inr text) ->
      json_loads text = inl msg ->
      monitor fuel run_id poll_interval max_wait w =
      Some (mkWorld b' (trace w ++ polling_trace run_id poll_interval answers
                                ++ [EvSqlStatus run_id; EvLoads text]),
            inl (JSONDecodeError msg))).
Proof.
  intros Hp Hchain Hlt Hfuel.
  assert (Hgo :
            monitor fuel run_id poll_interval max_wait w =
            match poll_once run_id poll_interval
                            (mkWorld (backend_after (backend w) answers)
                                     (trace w ++ polling_trace run_id
                                                  poll_interval answers)) with
            | (w', inl e) => Some (w', inl e)
            | (w', inr (Some status_dict)) => Some (w', inr (Some status_dict))
            | (w', inr None) =>
                monitor_loop (fuel - S (List.length answers)) run_id
                             poll_interval max_wait
                             (0 + Z.of_nat (List.length answers) * poll_interval
                              + poll_interval) w'
            end).
  { replace fuel with (List.length answers + S (fuel - S (List.length answers)))%nat
      at 1 by lia.
    unfold monitor.
    rewrite monitor_loop_keeps_polling by (assumption || lia).
    now rewrite monitor_loop_step by lia. }
  split.
  - intros b' e Hq. rewrite Hgo, poll_once_cases. cbn [backend trace].
    rewrite Hq. now rewrite <- app_assoc.
  - intros b' text msg Hq Hload. rewrite Hgo, poll_once_cases.
    cbn [backend trace]. rewrite Hq. cbn zeta. rewrite Hload.
    now rewrite <- app_assoc.
Qed.

Lemma py_in_In (v : json) (candidates : list string) :
  py_in v candidates = true <->
  exists l, v = JStr l /\ In l candidates.
Proof.
  split.
  - destruct v; cbn [py_in]; try discriminate.
    intros Hex. apply existsb_exists in Hex.
    destruct Hex as (x & Hin & Heq). apply String.eqb_eq in Heq. subst x.
    eauto.
  - intros (l & -> & Hin). cbn [py_in]. apply existsb_exists.
    exists l. split; [assumption|apply String.eqb_refl].
Qed.

(** X9.  The loop returns on an answer exactly when the answer is an object
    whose success is truthy and whose state is an object with a
    life_cycle_state equal to TERMINATED, SKIPPED or INTERNAL_ERROR.  A
    missing state, a state without life_cycle_state, any other lifecycle
    state, and any answer with a falsy or missing success do not end it. *)
Theorem run_completed_iff_terminal (status_dict : json) :
  run_completed status_dict = inr true <->
  exists l, reports_state status_dict l /\ In l terminal_states.
Proof.
  split.
  - unfold run_completed.
    destruct status_dict as [| | | | |fields]; try discriminate.
    cbn [py_get].
    destruct (assoc "success" fields) as [success|] eqn:Hs; [|discriminate].
    destruct (truthy success) eqn:Ht; [|discriminate].
    destruct (assoc "state" fields) as [state|] eqn:Hst.
    + destruct state as [| | | | |state_fields]; try discriminate.
      cbn [py_get].
      destruct (assoc "life_cycle_state" state_fields) as [lcs|] eqn:Hl;
        [|discriminate].
      intros Hin. injection Hin as Hin.
      apply py_in_In in Hin. destruct Hin as (l & -> & Hin).
      exists l. split; [|exact Hin].
      exists fields, success, state_fields. repeat split; assumption.
    + cbn [py_get assoc]. discriminate.
  - intros (l & Hrep & Hin). now apply terminal_run_completed with (l := l).
Qed.

(** X10.  Looking at an answer raises exactly when the answer is not an
    object, or when its success is truthy and its state is present but is not
    an object (null, for one); the exception is the AttributeError of a
    [.get] on a value of that type. *)
Theorem run_completed_raises_iff (status_dict : json) (e : exn) :
  run_completed status_dict = inl e <->
  exists culprit,
    isinstance_dict culprit = false /\
    e = AttributeError
          ("'" ++ py_type_name culprit ++ "' object has no attribute 'get'") /\
    (culprit = status_dict \/
     exists fields success,
       status_dict = JDict fields /\
       assoc "success" fields = Some success /\
       truthy success = true /\
       assoc "state" fields = Some culprit).
Proof.
  assert (Hget : forall (v : json) (key : string) (default : json),
             isinstance_dict v = false ->
             py_get v key default =
             inl (AttributeError
                    ("'" ++ py_type_name v ++ "' object has no attribute 'get'"))).
  { intros v key default Hv. destruct v; try discriminate; reflexivity. }
  split.
  - unfold run_completed.
    destruct (isinstance_dict status_dict) eqn:Hd.
    + destruct status_dict as [| | | | |fields]; try discriminate.
      cbn [py_get].
      destruct (assoc "success" fields) as [success|] eqn:Hs;
        [|cbn [truthy]; discriminate].
      destruct (truthy success) eqn:Ht; [|discriminate].
      destruct (assoc "state" fields) as [state|] eqn:Hst;
        [|cbn [py_get assoc]; discriminate].
      destruct (isinstance_dict state) eqn:Hsd.
      * destruct state as [| | | | |state_fields]; discriminate.
      * rewrite (Hget state _ _ Hsd). intros [= <-].
        exists state. split; [assumption|]. split; [reflexivity|].
        right. exists fields, success. repeat split; assumption.
    + rewrite (Hget status_dict _ _ Hd). intros [= <-].
      exists status_dict. split; [assumption|]. split; [reflexivity|now left].
  - intros (culprit & Hnot & -> & [->|(fields & success & -> & Hs & Ht & Hst)]).
    + unfold run_completed. now rewrite (Hget status_dict _ _ Hnot).
    + unfold run_completed. cbn [py_get]. rewrite Hs, Ht, Hst.
      now rewrite (Hget culprit _ _ Hnot).
Qed.

(** X11.  A negative poll interval is noticed only by time.sleep: with a
    positive budget the first status query is made, and when its answer does
    not end the loop the monitor raises ValueError after that one query. *)
Theorem monitor_negative_interval (run_id : json)
        (poll_interval max_wait : Z) (w : world B) (b1 : B) (text : string)
        (status_dict : json) (fuel : nat) :
  poll_interval < 0 -> 0 < max_wait ->
  sql_get_job_status (backend w) run_id = (b1, inr text) ->
  json_loads text = inr status_dict ->
  run_completed status_dict = inr false ->
  monitor (S fuel) run_id poll_interval max_wait w =
  Some (mkWorld b1 (trace w ++ [EvSqlStatus run_id; EvLoads text]),
        inl (ValueError "sleep length must be non-negative")).
Proof.
  intros Hp Hm Hq Hload Hrun.
  unfold monitor. rewrite monitor_loop_step by assumption.
  rewrite poll_once_cases, Hq. cbn zeta. rewrite Hload, Hrun.
  destruct (Z.ltb_spec poll_interval 0); [reflexivity|lia].
Qed.

(** X12.  With a poll interval of zero the elapsed time never grows: against
    status answers that never end the loop, the monitor with a positive
    budget runs forever.  No number of turns is enough for it to return. *)
Theorem monitor_zero_interval_runs_forever (Inv : B -> Prop) (run_id : json)
        (max_wait : Z) (w : world B) :
  0 < max_wait ->
  Inv (backend w) ->
  (forall b, Inv b ->
             exists b' text status_dict,
               sql_get_job_status b run_id = (b', inr text) /\
               json_loads text = inr status_dict /\
               run_completed status_dict = inr false /\
               Inv b') ->
  forall fuel, monitor fuel run_id 0 max_wait w = None.
Proof.
  intros Hm Hinv Hstep fuel. unfold monitor.
  assert (Hgen : forall elapsed' w',
             elapsed' < max_wait -> Inv (backend w') ->
             monitor_loop fuel run_id 0 max_wait elapsed' w' = None).
  { induction fuel as [|fuel IH]; intros elapsed' w' Hlt Hinv'.
    - cbn [monitor_loop]. destruct (Z.ltb_spec elapsed' max_wait); [reflexivity|lia].
    - rewrite monitor_loop_step by assumption.
      destruct (Hstep _ Hinv') as (b' & text & d & Hq & Hload & Hrun & Hinv'').
      rewrite poll_once_cases, Hq. cbn zeta. rewrite Hload, Hrun. cbn [Z.ltb Z.compare].
      apply IH; [lia|assumption]. }
  now apply Hgen.
Qed.

End MonitorProperties.

(** * Properties of the callers *)

Section CallerProperties.
Context {B : Type} `{P : Platform B}.

(** The SQL parameters of the trigger step: given only for a non-empty
    dictionary of notebook parameters. *)
Lemma trigger_step_dict (job_id : string) (notebook_params : option json)
      (w : world B) (b1 : B) (text : string) (fields : list (string * json)) :
  let params :=
    if truthy (opt_json (fun d => d) notebook_params)
    then Some (json_dumps_flat (opt_json (fun d => d) notebook_params))
    else None in
  sql_trigger_databricks_flow (backend w) job_id params = (b1, inr text) ->
  json_loads text = inr (JDict fields) ->
  trigger_step job_id notebook_params w =
  (mkWorld b1 (trace w ++ [EvSqlTrigger job_id params; EvLoads text]),
   inr (if truthy (match assoc "success" fields with
                   | Some v => v | None => JNull end)
        then Some (match assoc "run_id" fields with
                   | Some v => v | None => JNull end)
        else None)).
Proof.
  intros params Hq Hload. unfold trigger_step, bind, loads, lift, ret.
  fold params.
  assert (Hcall :
            (if truthy (opt_json (fun d => d) notebook_params)
             then call (EvSqlTrigger job_id (Some (json_dumps_flat
                          (opt_json (fun d => d) notebook_params))))
                       (fun b => sql_trigger_databricks_flow b job_id
                                   (Some (json_dumps_flat
                                            (opt_json (fun d => d) notebook_params))))
             else call (EvSqlTrigger job_id None)
                       (fun b => sql_trigger_databricks_flow b job_id None)) w =
            (mkWorld b1 (trace w ++ [EvSqlTrigger job_id params]), inr text)).
  { unfold params in *.
    destruct (truthy (opt_json (fun d => d) notebook_params));
      unfold call; now rewrite Hq. }
  rewrite Hcall. unfold call. cbn [backend trace]. rewrite Hload.
  rewrite <- app_assoc. cbn [app py_get].
  destruct (truthy match assoc "success" fields with
                   | Some v => v | None => JNull end); reflexivity.
Qed.

Lemma poll_once_status_queries (run_id : json) (poll_interval : Z)
      (w : world B) :
  status_queries (trace (fst (poll_once run_id poll_interval w))) =
  (status_queries (trace w) ++ [EvSqlStatus run_id])%list.
Proof.
  rewrite poll_once_cases.
  destruct (sql_get_job_status (backend w) run_id) as [b1 [e|text]];
    [cbn [fst trace]; now rewrite status_queries_app|].
  cbn zeta.
  destruct (json_loads text) as [msg|d];
    [cbn [fst trace]; now rewrite status_queries_app|].
  destruct (run_completed d) as [e|[|]];
    try (cbn [fst trace]; now rewrite status_queries_app).
  destruct (poll_interval <? 0); cbn [fst trace];
    now rewrite status_queries_app.
Qed.

(** Every status query of the loop is for the run identifier it was given. *)
Lemma monitor_loop_query_ids (run_id : json) (poll_interval max_wait : Z) :
  forall (fuel : nat) (elapsed : Z) (w w' : world B) r,
    monitor_loop fuel run_id poll_interval max_wait elapsed w = Some (w', r) ->
    forall ev, In ev (status_queries (trace w')) ->
               In ev (status_queries (trace w)) \/ ev = EvSqlStatus run_id.
Proof.
  induction fuel as [|fuel IH]; intros elapsed w w' r Hrun ev Hin.
  - cbn [monitor_loop] in Hrun.
    destruct (elapsed <? max_wait); [discriminate|].
    injection Hrun as <- <-. now left.
  - destruct (Z.lt_ge_cases elapsed max_wait) as [Hlt|Hge].
    + rewrite monitor_loop_step in Hrun by assumption.
      pose proof (poll_once_status_queries run_id poll_interval w) as Hq.
      destruct (poll_once run_id poll_interval w) as [w1 [e|[d|]]];
        cbn [fst] in Hq.
      * injection Hrun as <- <-. rewrite Hq in Hin.
        apply in_app_or in Hin. destruct Hin as [Hin|[<-|[]]]; auto.
      * injection Hrun as <- <-. rewrite Hq in Hin.
        apply in_app_or in Hin. destruct Hin as [Hin|[<-|[]]]; auto.
      * destruct (IH _ _ _ _ Hrun ev Hin) as [Hin1|Heq]; [|now right].
        rewrite Hq in Hin1.
        apply in_app_or in Hin1. destruct Hin1 as [Hin1|[<-|[]]]; auto.
    + rewrite monitor_loop_exit in Hrun by assumption.
      injection Hrun as <- <-. now left.
Qed.

(** X13.  When the trigger result says success is false (or says nothing of
    it), trigger_and_monitor_job returns None after the one SQL trigger call
    and the decoding of its result: it makes no status query and does not
    sleep, whatever the interval and the budget. *)
Theorem trigger_failure_skips_monitor (fuel : nat) (job_id : string)
        (notebook_params : option json) (poll_interval max_wait : Z)
        (w : world B) (b1 : B) (text : string)
        (fields : list (string * json)) :
  let params :=
    if truthy (opt_json (fun d => d) notebook_params)
    then Some (json_dumps_flat (opt_json (fun d => d) notebook_params))
    else None in
  sql_trigger_databricks_flow (backend w) job_id params = (b1, inr text) ->
  json_loads text = inr (JDict fields) ->
  truthy (match assoc "success" fields with Some v => v | None => JNull end)
  = false ->
  trigger_and_monitor_job fuel job_id notebook_params poll_interval max_wait w =
  Some (mkWorld b1 (trace w ++ [EvSqlTrigger job_id params; EvLoads text]),
        inr None).
Proof.
  intros params Hq Hload Hfail. unfold trigger_and_monitor_job.
  rewrite (trigger_step_dict job_id notebook_params w b1 text fields Hq Hload).
  now rewrite Hfail.
Qed.

(** X14.  When the trigger result says success, trigger_and_monitor_job is the
    monitor run on the run_id of that result (None when the result has no
    run_id), and every status query it makes is for that run identifier. *)
Theorem trigger_success_monitors_run (fuel : nat) (job_id : string)
        (notebook_params : option json) (poll_interval max_wait : Z)
        (w : world B) (b1 : B) (text : string)
        (fields : list (string * json)) :
  let params :=
    if truthy (opt_json (fun d => d) notebook_params)
    then Some (json_dumps_flat (opt_json (fun d => d) notebook_params))
    else None in
  let run_id := match assoc "run_id" fields with Some v => v | None => JNull end in
  let w1 := mkWorld b1 (trace w ++ [EvSqlTrigger job_id params; EvLoads text]) in
  sql_trigger_databricks_flow (backend w) job_id params = (b1, inr text) ->
  json_loads text = inr (JDict fields) ->
  truthy (match assoc "success" fields with Some v => v | None => JNull end)
  = true ->
  trigger_and_monitor_job fuel job_id notebook_params poll_interval max_wait w =
  monitor fuel run_id poll_interval max_wait w1 /\
  (forall w' r,
      trigger_and_monitor_job fuel job_id notebook_params poll_interval
                              max_wait w = Some (w', r) ->
      forall ev, In ev (status_queries (trace w')) ->
                 In ev (status_queries (trace w)) \/ ev = EvSqlStatus run_id).
Proof.
  intros params run_id w1 Hq Hload Hok.
  assert (Heq : trigger_and_monitor_job fuel job_id notebook_params
                                        poll_interval max_wait w =
                monitor fuel run_id poll_interval max_wait w1).
  { unfold trigger_and_monitor_job.
    rewrite (trigger_step_dict job_id notebook_params w b1 text fields Hq Hload).
    now rewrite Hok. }
  split; [exact Heq|].
  intros w' r Hrun ev Hin. rewrite Heq in Hrun. unfold monitor in Hrun.
  destruct (monitor_loop_query_ids _ _ _ _ _ _ _ _ Hrun ev Hin) as [Hin1|Hev];
    [|now right].
  left. unfold w1 in Hin1. cbn [trace] in Hin1.
  rewrite status_queries_app in Hin1. cbn in Hin1.
  now rewrite app_nil_r in Hin1.
Qed.

(** X15.  The script of trigger_flow_function.py.  With fewer than two
    arguments it prints its four usage lines and exits with status 1 without
    building a client or calling the backend.  Otherwise it prints the banner
    and then either prints the result and ends normally, whether the result
    says success or failure, or dies of the exception validation raised, in
    which case no job call was made. *)
Theorem script_main_endings (argv : list string) (w : world B) :
  ((List.length argv < 2)%nat ->
   script_main argv w = (w, (usage_lines, SysExit 1))) /\
  ((2 <= List.length argv)%nat ->
   exists w' lines how,
     script_main argv w =
     (w', (("Triggering job " ++ nth 1 argv EmptyString ++ "...") :: lines,
           how)) /\
     ((how = Completed /\ exists result, lines = [result]) \/
      (exists e, how = Uncaught e /\ lines = [] /\
                 remote_calls (trace w') = remote_calls (trace w)))).
Proof.
  split; intros Hlen; unfold script_main.
  - destruct (Nat.ltb_spec (List.length argv) 2); [reflexivity|lia].
  - destruct (Nat.ltb_spec (List.length argv) 2); [lia|].
    set (nbp := if (2 <? List.length argv)%nat
                then Some (nth 2 argv EmptyString) else None).
    rewrite trigger_flow_unfold.
    pose proof (validate_no_remote (nth 1 argv EmptyString) nbp
                                   None None None None None w) as Hno.
    destruct (validate (nth 1 argv EmptyString) nbp None None None None None w)
      as [w1 [e|parsed]]; cbn [fst] in Hno.
    + do 3 eexists. split; [reflexivity|]. right. eauto.
    + destruct (trigger_dict_returns (nth 1 argv EmptyString) parsed None w1)
        as (w2 & d & Hd).
      rewrite Hd. do 3 eexists. split; [reflexivity|]. left. eauto.
Qed.

(** X16.  The main of local_test.py never raises, whatever the arguments and
    whatever the backend does: every exception of the trigger call, those of
    validation and of the client construction included, is caught.  With
    --dry-run it has no effect at all: no client, no decoding, no job call.
    Without it, its job calls are those of the one trigger call it makes. *)
Theorem local_test_main_never_raises (args : Args) (w : world B) :
  exists w',
    local_test_main args w = (w', inr tt) /\
    (arg_dry_run args = true -> w' = w) /\
    (arg_dry_run args = false ->
     remote_calls (trace w') =
     remote_calls
       (trace (fst (trigger_databricks_flow
                      (arg_job_id args) (arg_notebook_params args)
                      (arg_python_params args) (arg_jar_params args)
                      (arg_pipeline_params args) (arg_sql_params args)
                      (arg_dbt_commands args) (arg_idempotency_token args) w)))).
Proof.
  unfold local_test_main.
  destruct (arg_dry_run args).
  - exists w. repeat split; auto; discriminate.
  - unfold try_except, bind at 1.
    destruct (trigger_databricks_flow _ _ _ _ _ _ _ _ w) as [w1 [e|result]];
      cbn [fst].
    + exists w1. repeat split; auto; discriminate.
    + unfold bind, loads, call, lift, ret. cbn [backend trace].
      exists (mkWorld (backend w1) (trace w1 ++ [EvLoads result])).
      assert (Hcalls : remote_calls (trace w1 ++ [EvLoads result]) =
                       remote_calls (trace w1)).
      { rewrite remote_calls_app. cbn. apply app_nil_r. }
      split; [|split; [discriminate|intros _; exact Hcalls]].
      destruct (json_loads result) as [msg|d]; [reflexivity|].
      destruct (py_get d "success" JNull) as [e|success]; [reflexivity|].
      destruct (truthy success).
      * destruct (py_get d "run_id" JNull); [reflexivity|].
        destruct (py_get d "number_in_job" JNull); [reflexivity|].
        destruct (py_get d "state" (JDict [])) as [e|state]; [reflexivity|].
        destruct (py_get state "life_cycle_state" JNull); [reflexivity|].
        destruct (py_get d "run_page_url" JNull); reflexivity.
      * destruct (py_get d "error_type" JNull); [reflexivity|].
        destruct (py_get d "message" JNull); reflexivity.
Qed.

End CallerProperties.

(** * Properties of the registration *)

Section RegistrationProperties.
Variable W : Type.
Variable reg_WorkspaceClient : W -> W * (exn + unit).
Variable execute_statement :
  W -> string -> string -> string -> W * (exn + Statement).
Variable get_statement : W -> string -> W * (exn + Statement).
Variable functions_get : W -> string -> W * (exn + FunctionInfo).
Variable sql_body : string -> string.

Local Notation "'wait'" := (wait_for_completion W get_statement).
Local Notation "'verify'" := (verify_function W functions_get).
Local Notation "'create'" :=
  (create_trigger_flow_function W reg_WorkspaceClient execute_statement
                                get_statement functions_get sql_body).
Local Notation "'in_progress_chain'" := (stays_in_progress W get_statement).

Lemma reg_call_run {A : Type} (ev : reg_event) (f : W -> W * (exn + A))
      (w : world (W * list reg_event)) (b' : W) (r : exn + A) :
  f (fst (backend w)) = (b', r) ->
  reg_call ev f w = (mkWorld (b', (reg_log w ++ [ev])%list) (trace w), r).
Proof. intros Hf. unfold reg_call, reg_log. now rewrite Hf. Qed.

Lemma wait_step (fuel : nat) (cur : Statement)
      (w : world (W * list reg_event)) (b' : W) (r : exn + Statement) :
  in_progress (stmt_state cur) = true ->
  get_statement (fst (backend w)) (stmt_id cur) = (b', r) ->
  wait (S fuel) cur w =
  let w' := mkWorld (b', (reg_log w ++ [RegSleep 1; RegGetStatement (stmt_id cur)])%list)
                    (trace w) in
  match r with
  | inl e => Some (w', inl e)
  | inr next => wait fuel next w'
  end.
Proof.
  intros Hin Hget. cbn [wait_for_completion]. rewrite Hin.
  unfold bind, reg_call, reg_log. cbn [backend fst snd trace].
  rewrite Hget, <- app_assoc. cbn [app]. destruct r; reflexivity.
Qed.

Lemma wait_done (fuel : nat) (cur : Statement) (w : world (W * list reg_event)) :
  in_progress (stmt_state cur) = false ->
  wait fuel cur w = Some (w, inr cur).
Proof.
  intros Hout. destruct fuel; cbn [wait_for_completion]; now rewrite Hout.
Qed.

(** The loop against a statement that stays in progress for the given
    answers and then leaves that state. *)
Lemma wait_through (answers : list (Statement * W)) :
  forall (cur : Statement) (w : world (W * list reg_event)) (fuel : nat)
         (bf : W) (final : Statement),
    in_progress (stmt_state cur) = true ->
    in_progress_chain (fst (backend w)) (stmt_id cur) answers ->
    get_statement (workspace_after (fst (backend w)) answers)
                  (id_after (stmt_id cur) answers) = (bf, inr final) ->
    in_progress (stmt_state final) = false ->
    wait (S (List.length answers) + fuel) cur w =
    Some (mkWorld (bf, (reg_log w ++
                        [RegSleep 1; RegGetStatement (stmt_id cur)] ++
                        waiting_log answers)%list)
                  (trace w),
          inr final).
Proof.
  induction answers as [|[st b'] answers IH];
    intros cur w fuel bf final Hcur Hchain Hget Hfinal.
  - cbn in Hget. cbn [List.length Nat.add].
    rewrite (wait_step _ _ _ _ _ Hcur Hget). cbn zeta.
    rewrite wait_done by assumption. reflexivity.
  - cbn [stays_in_progress] in Hchain. destruct Hchain as (Hg & Hst & Hrest).
    cbn [List.length Nat.add].
    rewrite (wait_step _ _ _ _ _ Hcur Hg). cbn zeta.
    unfold workspace_after, id_after in Hget. cbn [map fst snd] in Hget.
    rewrite !last_cons in Hget.
    change (S (List.length answers + fuel))
      with (S (List.length answers) + fuel)%nat.
    rewrite (IH st
                (mkWorld (b', (reg_log w ++
                               [RegSleep 1; RegGetStatement (stmt_id cur)])%list)
                         (trace w))
                fuel bf final Hst Hrest Hget Hfinal).
    unfold reg_log, waiting_log. cbn [backend snd trace flat_map fst].
    rewrite <- !app_assoc. reflexivity.
Qed.

Lemma functions_get_app (l1 l2 : list reg_event) :
  filter is_functions_get (l1 ++ l2) =
  (filter is_functions_get l1 ++ filter is_functions_get l2)%list.
Proof. apply filter_app. Qed.

(** The loop only sleeps and asks for the statement. *)
Lemma wait_log (fuel : nat) :
  forall (cur : Statement) (w w' : world (W * list reg_event)) r,
    wait fuel cur w = Some (w', r) ->
    filter is_functions_get (reg_log w') = filter is_functions_get (reg_log w).
Proof.
  induction fuel as [|fuel IH]; intros cur w w' r Hrun.
  - cbn [wait_for_completion] in Hrun.
    destruct (in_progress (stmt_state cur)); [discriminate|].
    now injection Hrun as <- <-.
  - destruct (in_progress (stmt_state cur)) eqn:Hin.
    + destruct (get_statement (fst (backend w)) (stmt_id cur)) as [b' res] eqn:Hg.
      rewrite (wait_step _ _ _ _ _ Hin Hg) in Hrun. cbn zeta in Hrun.
      destruct res as [e|next].
      * injection Hrun as <- <-. unfold reg_log. cbn [backend snd].
        rewrite functions_get_app. cbn. apply app_nil_r.
      * rewrite (IH _ _ _ _ Hrun). unfold reg_log. cbn [backend snd].
        rewrite functions_get_app. cbn. apply app_nil_r.
    + rewrite wait_done in Hrun by assumption. now injection Hrun as <- <-.
Qed.

Lemma verify_cases (name : string) (w : world (W * list reg_event)) :
  verify name w =
  match functions_get (fst (backend w)) name with
  | (b', r) =>
      (mkWorld (b', (reg_log w ++ [RegFunctionsGet name])%list) (trace w),
       inr match r with
           | inr info =>
               match fi_input_params info with
               | Some (Some _) => Some info
               | _ => None
               end
           | inl _ => None
           end)
  end.
Proof.
  unfold verify_function, try_except, bind, reg_call, reg_log, ret, raise.
  destruct (functions_get (fst (backend w)) name) as [b' [e|info]];
    [reflexivity|].
  destruct (fi_input_params info) as [[ps|]|]; reflexivity.
Qed.

(** The loop against a statement that stays in progress for the given
    answers, whatever the fetch after them gives: an exception, or a statement
    that has left that state. *)
Lemma wait_through_result (answers : list (Statement * W)) :
  forall (cur : Statement) (w : world (W * list reg_event)) (fuel : nat)
         (bf : W) (r : exn + Statement),
    in_progress (stmt_state cur) = true ->
    in_progress_chain (fst (backend w)) (stmt_id cur) answers ->
    get_statement (workspace_after (fst (backend w)) answers)
                  (id_after (stmt_id cur) answers) = (bf, r) ->
    match r with
    | inr final => in_progress (stmt_state final) = false
    | inl _ => True
    end ->
    wait (S (List.length answers) + fuel) cur w =
    Some (mkWorld (bf, (reg_log w ++
                        [RegSleep 1; RegGetStatement (stmt_id cur)] ++
                        waiting_log answers)%list)
                  (trace w),
          r).
Proof.
  induction answers as [|[st b'] answers IH];
    intros cur w fuel bf r Hcur Hchain Hget Hfinal.
  - cbn in Hget. cbn [List.length Nat.add].
    rewrite (wait_step _ _ _ _ _ Hcur Hget). cbn zeta.
    destruct r as [e|final]; [reflexivity|].
    rewrite wait_done by assumption. reflexivity.
  - cbn [stays_in_progress] in Hchain. destruct Hchain as (Hg & Hst & Hrest).
    cbn [List.length Nat.add].
    rewrite (wait_step _ _ _ _ _ Hcur Hg). cbn zeta.
    unfold workspace_after, id_after in Hget. cbn [map fst snd] in Hget.
    rewrite !last_cons in Hget.
    change (S (List.length answers + fuel))
      with (S (List.length answers) + fuel)%nat.
    rewrite (IH st
                (mkWorld (b', (reg_log w ++
                               [RegSleep 1; RegGetStatement (stmt_id cur)])%list)
                         (trace w))
                fuel bf r Hst Hrest Hget Hfinal).
    unfold reg_log, waiting_log. cbn [backend snd trace flat_map fst].
    rewrite <- !app_assoc. reflexivity.
Qed.

(** The registration against a statement that stays in progress for the
    given answers: what it returns is decided by the fetch after them. *)
Lemma create_after_answers (fuel : nat) (catalog schema : string)
      (w : world (W * list reg_event)) (b0 b1 bf : W) (s0 : Statement)
      (answers : list (Statement * W)) (r : exn + Statement) :
  let name := catalog ++ "." ++ schema ++ ".trigger_databricks_flow" in
  let waited :=
    (reg_log w ++
     [RegClient; RegExecute (sql_body name) catalog schema;
      RegGetStatement (stmt_id s0)] ++ waiting_log answers)%list in
  reg_WorkspaceClient (fst (backend w)) = (b0, inr tt) ->
  execute_statement b0 (sql_body name) catalog schema = (b1, inr s0) ->
  in_progress_chain b1 (stmt_id s0) answers ->
  get_statement (workspace_after b1 answers) (id_after (stmt_id s0) answers) =
  (bf, r) ->
  match r with
  | inr final => in_progress (stmt_state final) = false
  | inl _ => True
  end ->
  (List.length answers <= fuel)%nat ->
  create fuel catalog schema w =
  match r with
  | inl _ => Some (mkWorld (bf, waited) (trace w), inr None)
  | inr final =>
      if is_succeeded (stmt_state final)
      then Some (verify name (mkWorld (bf, waited) (trace w)))
      else Some (mkWorld (bf, waited) (trace w), inr None)
  end.
Proof.
  intros name waited Hclient Hexec Hchain Hfinal_get Hout Hfuel.
  unfold create_trigger_flow_function.
  rewrite (reg_call_run _ _ _ _ _ Hclient). fold name. unfold bind.
  rewrite (reg_call_run _ _ _ b1 (inr s0)) by exact Hexec.
  cbn [reg_log backend snd trace].
  destruct answers as [|[st b'] answers].
  - cbn in Hfinal_get.
    rewrite (reg_call_run _ _ _ bf r) by exact Hfinal_get.
    unfold waited, reg_log. cbn [backend snd trace waiting_log flat_map].
    rewrite <- !app_assoc. cbn [app].
    destruct r as [e|final]; [reflexivity|].
    rewrite wait_done by assumption. reflexivity.
  - cbn [stays_in_progress] in Hchain. destruct Hchain as (Hg & Hst & Hrest).
    rewrite (reg_call_run _ _ _ b' (inr st)) by exact Hg.
    unfold workspace_after, id_after in Hfinal_get.
    cbn [map fst snd] in Hfinal_get. rewrite !last_cons in Hfinal_get.
    cbn [List.length] in Hfuel.
    replace fuel with (S (List.length answers) + (fuel - S (List.length answers)))%nat
      by lia.
    match goal with
    | |- context [wait_for_completion _ _ _ st ?w1] =>
        rewrite (wait_through_result answers st w1 _ bf r Hst Hrest
                                     Hfinal_get Hout)
    end.
    unfold waited, reg_log, waiting_log.
    cbn [backend snd trace flat_map fst].
    rewrite <- !app_assoc. cbn [app].
    destruct r as [e|final]; reflexivity.
Qed.

(** X17.  Once the workspace client is built, create_trigger_flow_function
    never raises, and every failure makes it return None: execute_statement
    raising; get_statement raising, at the first fetch or after any number of
    PENDING or RUNNING answers; the statement ending in a state other than
    SUCCEEDED; and, after SUCCEEDED, functions.get raising or answering a
    function info without a parameter list.  It returns a function info only
    when functions.get, asked once in the workspace the last fetch left,
    answers that info with its parameters listed. *)
Theorem create_function_never_raises (catalog schema : string)
        (w : world (W * list reg_event)) (b0 : W) :
  let name := catalog ++ "." ++ schema ++ ".trigger_databricks_flow" in
  let submitted :=
    (reg_log w ++ [RegClient; RegExecute (sql_body name) catalog schema])%list in
  reg_WorkspaceClient (fst (backend w)) = (b0, inr tt) ->
  (forall fuel,
      create fuel catalog schema w = None \/
      exists w' result, create fuel catalog schema w = Some (w', inr result)) /\
  (forall fuel b1 e,
      execute_statement b0 (sql_body name) catalog schema = (b1, inl e) ->
      create fuel catalog schema w =
      Some (mkWorld (b1, submitted) (trace w), inr None)) /\
  (forall fuel b1 s0 answers bf,
      execute_statement b0 (sql_body name) catalog schema = (b1, inr s0) ->
      in_progress_chain b1 (stmt_id s0) answers ->
      (List.length answers <= fuel)%nat ->
      let waited :=
        (submitted ++
         RegGetStatement (stmt_id s0) :: waiting_log answers)%list in
      (forall e,
          get_statement (workspace_after b1 answers)
                        (id_after (stmt_id s0) answers) = (bf, inl e) ->
          create fuel catalog schema w =
          Some (mkWorld (bf, waited) (trace w), inr None)) /\
      (forall final,
          get_statement (workspace_after b1 answers)
                        (id_after (stmt_id s0) answers) = (bf, inr final) ->
          in_progress (stmt_state final) = false ->
          is_succeeded (stmt_state final) = false ->
          create fuel catalog schema w =
          Some (mkWorld (bf, waited) (trace w), inr None)) /\
      (forall final b4 r,
          get_statement (workspace_after b1 answers)
                        (id_after (stmt_id s0) answers) = (bf, inr final) ->
          stmt_state final = SUCCEEDED ->
          functions_get bf name = (b4, r) ->
          create fuel catalog schema w =
          Some (mkWorld (b4, (waited ++ [RegFunctionsGet name])%list) (trace w),
                inr match r with
                    | inr info =>
                        match fi_input_params info with
                        | Some (Some _) => Some info
                        | _ => None
                        end
                    | inl _ => None
                    end))).
Proof.
  intros name submitted Hclient.
  split; [|split].
  - intros fuel. unfold create_trigger_flow_function.
    rewrite (reg_call_run _ _ _ _ _ Hclient). fold name. unfold bind.
    match goal with
    | |- context [reg_call ?ev ?f ?w0] =>
        destruct (reg_call ev f w0) as [w1 [e|s0]]
    end; [right; eauto|].
    match goal with
    | |- context [reg_call ?ev ?f w1] =>
        destruct (reg_call ev f w1) as [w2 [e|st]]
    end; [right; eauto|].
    destruct (wait fuel st w2) as [[w3 [e|final]]|]; [right; eauto| |now left].
    destruct (is_succeeded (stmt_state final)); [|right; eauto].
    rewrite verify_cases.
    destruct (functions_get (fst (backend w3)) name) as [b4 r].
    right; eauto.
  - intros fuel b1 e Hexec. unfold create_trigger_flow_function.
    rewrite (reg_call_run _ _ _ _ _ Hclient). fold name. unfold bind.
    rewrite (reg_call_run _ _ _ b1 (inl e)) by exact Hexec.
    unfold submitted, reg_log. cbn [backend snd trace].
    rewrite <- !app_assoc. reflexivity.
  - intros fuel b1 s0 answers bf Hexec Hchain Hfuel waited.
    assert (Hwaited :
              waited =
              (reg_log w ++
               [RegClient; RegExecute (sql_body name) catalog schema;
                RegGetStatement (stmt_id s0)] ++ waiting_log answers)%list).
    { unfold waited, submitted. rewrite <- !app_assoc. reflexivity. }
    rewrite Hwaited. split; [|split].
    + intros e Hget.
      exact (create_after_answers fuel catalog schema w b0 b1 bf s0 answers
                                  (inl e) Hclient Hexec Hchain Hget I Hfuel).
    + intros final Hget Hout Hfailed.
      rewrite (create_after_answers fuel catalog schema w b0 b1 bf s0 answers
                                    (inr final) Hclient Hexec Hchain Hget Hout
                                    Hfuel).
      fold name. now rewrite Hfailed.
    + intros final b4 r Hget Hdone Hfg.
      assert (Hout : in_progress (stmt_state final) = false)
        by now rewrite Hdone.
      rewrite (create_after_answers fuel catalog schema w b0 b1 bf s0 answers
                                    (inr final) Hclient Hexec Hchain Hget Hout
                                    Hfuel).
      fold name. rewrite Hdone. cbn [is_succeeded].
      rewrite verify_cases. cbn [backend fst]. rewrite Hfg.
      unfold reg_log. cbn [backend snd trace]. reflexivity.
Qed.

(** X18.  The statement is asked for once after it is submitted and then,
    while it is PENDING or RUNNING, once more after each sleep of one second.
    When it stays in progress for k answers and then leaves that state, the
    function has slept k times and asked k + 1 times; it then asks for the
    function if the final state is SUCCEEDED, and returns None without asking
    if it is any other state. *)
Theorem create_function_waits (fuel : nat) (catalog schema : string)
        (w : world (W * list reg_event)) (b0 b1 bf : W) (s0 final : Statement)
        (answers : list (Statement * W)) :
  let name := catalog ++ "." ++ schema ++ ".trigger_databricks_flow" in
  let waited :=
    (reg_log w ++
     [RegClient; RegExecute (sql_body name) catalog schema;
      RegGetStatement (stmt_id s0)] ++ waiting_log answers)%list in
  reg_WorkspaceClient (fst (backend w)) = (b0, inr tt) ->
  execute_statement b0 (sql_body name) catalog schema = (b1, inr s0) ->
  in_progress_chain b1 (stmt_id s0) answers ->
  get_statement (workspace_after b1 answers) (id_after (stmt_id s0) answers) =
  (bf, inr final) ->
  in_progress (stmt_state final) = false ->
  (List.length answers <= fuel)%nat ->
  (is_succeeded (stmt_state final) = false ->
   create fuel catalog schema w =
   Some (mkWorld (bf, waited) (trace w), inr None)) /\
  (is_succeeded (stmt_state final) = true ->
   create fuel catalog schema w =
   Some (verify name (mkWorld (bf, waited) (trace w)))).
Proof.
  intros name waited Hclient Hexec Hchain Hfinal_get Hout Hfuel.
  assert (Hwaited :
            match (statement <-
                     reg_call (RegExecute (sql_body name) catalog schema)
                              (fun b => execute_statement
                                          b (sql_body name) catalog schema) ;;
                   reg_call (RegGetStatement (stmt_id statement))
                            (fun b => get_statement b (stmt_id statement)))
                    (mkWorld (b0, (reg_log w ++ [RegClient])%list) (trace w)) with
            | (w1, inl e) => Some (w1, @inr exn (option FunctionInfo) None)
            | (w1, inr statement) =>
                match wait fuel statement w1 with
                | None => None
                | Some (w2, inl e) => Some (w2, inr None)
                | Some (w2, inr final') =>
                    if is_succeeded (stmt_state final')
                    then Some (verify name w2)
                    else Some (w2, inr None)
                end
            end =
            if is_succeeded (stmt_state final)
            then Some (verify name (mkWorld (bf, waited) (trace w)))
            else Some (mkWorld (bf, waited) (trace w), inr None)).
  { unfold bind.
    rewrite (reg_call_run _ _ _ b1 (inr s0)) by exact Hexec.
    cbn [reg_log backend snd trace].
    destruct answers as [|[st b'] answers].
    - cbn in Hfinal_get.
      rewrite (reg_call_run _ _ _ bf (inr final)) by exact Hfinal_get.
      rewrite wait_done by assumption.
      unfold waited, reg_log. cbn [backend snd trace waiting_log flat_map].
      rewrite <- !app_assoc. cbn [app]. reflexivity.
    - cbn [stays_in_progress] in Hchain. destruct Hchain as (Hg & Hst & Hrest).
      rewrite (reg_call_run _ _ _ b' (inr st)) by exact Hg.
      unfold workspace_after, id_after in Hfinal_get.
      cbn [map fst snd] in Hfinal_get. rewrite !last_cons in Hfinal_get.
      cbn [List.length] in Hfuel.
      replace fuel with (S (List.length answers) + (fuel - S (List.length answers)))%nat
        by lia.
      match goal with
      | |- context [wait_for_completion _ _ _ st ?w1] =>
          rewrite (wait_through answers st w1 _ bf final Hst Hrest
                                Hfinal_get Hout)
      end.
      unfold waited, reg_log, waiting_log.
      cbn [backend snd trace flat_map fst].
      rewrite <- !app_assoc. cbn [app]. reflexivity. }
  split; intros Hs; unfold create_trigger_flow_function;
    rewrite (reg_call_run _ _ _ _ _ Hclient); fold name;
    rewrite Hwaited, Hs; reflexivity.
Qed.

(** X19.  The wait for the statement has no time limit: against a workspace
    that keeps answering PENDING or RUNNING, the function never returns,
    however many turns it is given. *)
Theorem create_function_waits_forever (Inv : W -> string -> Prop)
        (catalog schema : string) (w : world (W * list reg_event))
        (b0 b1 : W) (s0 : Statement) :
  let name := catalog ++ "." ++ schema ++ ".trigger_databricks_flow" in
  reg_WorkspaceClient (fst (backend w)) = (b0, inr tt) ->
  execute_statement b0 (sql_body name) catalog schema = (b1, inr s0) ->
  Inv b1 (stmt_id s0) ->
  (forall b id, Inv b id ->
                exists b' st,
                  get_statement b id = (b', inr st) /\
                  in_progress (stmt_state st) = true /\
                  Inv b' (stmt_id st)) ->
  forall fuel, create fuel catalog schema w = None.
Proof.
  intros name Hclient Hexec Hinv Hstep fuel.
  assert (Hloop : forall fuel cur w1,
             in_progress (stmt_state cur) = true ->
             Inv (fst (backend w1)) (stmt_id cur) ->
             wait fuel cur w1 = None).
  { clear fuel. induction fuel as [|fuel IH]; intros cur w1 Hcur Hinv1.
    - cbn [wait_for_completion]. now rewrite Hcur.
    - destruct (Hstep _ _ Hinv1) as (b' & st & Hg & Hst & Hinv').
      rewrite (wait_step _ _ _ _ _ Hcur Hg). cbn zeta.
      apply IH; [assumption|exact Hinv']. }
  unfold create_trigger_flow_function.
  rewrite (reg_call_run _ _ _ _ _ Hclient). fold name. unfold bind.
  rewrite (reg_call_run _ _ _ b1 (inr s0)) by exact Hexec.
  destruct (Hstep _ _ Hinv) as (b' & st & Hg & Hst & Hinv').
  rewrite (reg_call_run _ _ _ b' (inr st)) by exact Hg.
  now rewrite Hloop.
Qed.

End RegistrationProperties.

(** * Properties of the agent *)

Section AgentProperties.
Variables Message Chunk Response : Type.
Variable mk_message : json -> exn + Message.
Variable mk_chunk : json -> exn + Chunk.
Variable mk_response : list Message -> exn + Response.
Variable subscript_error : json -> exn.

Local Notation "'build'" := (build_messages Message mk_message).
Local Notation "'yields'" := (yield_chunks Chunk mk_chunk).
Local Notation "'p_event'" := (predict_event Message mk_message).
Local Notation "'p_events'" := (predict_events Message mk_message).
Local Notation "'s_event'" := (stream_event Chunk mk_chunk subscript_error).
Local Notation "'s_events'" := (predict_stream Chunk mk_chunk subscript_error).

(** X20.  The routing of the agent graph looks at the last message only: it
    continues to the tools when that message has a truthy tool_calls entry
    and ends otherwise, also when tool_calls is an empty list, whatever the
    earlier messages hold.  With no message at all it raises IndexError. *)
Theorem should_continue_last_message :
  should_continue [] = inl (IndexError "list index out of range") /\
  (forall (earlier : list json) (last_message : json),
      should_continue (earlier ++ [last_message]) =
      match py_get last_message "tool_calls" JNull with
      | inl e => inl e
      | inr tool_calls => inr (if truthy tool_calls then "continue" else "end")
      end) /\
  (forall (earlier : list json) (fields : list (string * json)),
      assoc "tool_calls" fields = None \/
      assoc "tool_calls" fields = Some (JList []) ->
      should_continue (earlier ++ [JDict fields]) = inr "end").
Proof.
  assert (Hlast : forall (earlier : list json) (m : json),
             should_continue (earlier ++ [m]) =
             match py_get m "tool_calls" JNull with
             | inl e => inl e
             | inr tool_calls =>
                 inr (if truthy tool_calls then "continue" else "end")
             end).
  { intros earlier m. unfold should_continue.
    destruct earlier as [|first rest]; [reflexivity|].
    cbn [app]. now rewrite last_last. }
  split; [reflexivity|]. split; [exact Hlast|].
  intros earlier fields [Hnone|Hempty]; rewrite Hlast; cbn [py_get].
  - now rewrite Hnone.
  - now rewrite Hempty.
Qed.

Lemma build_total (items : list json) :
  (forall m, In m items -> exists x, mk_message m = inr x) ->
  exists ms, build items = inr ms /\
             Forall2 (fun m x => mk_message m = inr x) items ms.
Proof.
  induction items as [|m items IH]; intros Hall.
  - exists []. split; [reflexivity|constructor].
  - destruct (Hall m (or_introl eq_refl)) as [x Hx].
    destruct IH as (ms & Hms & Hrel); [intros; apply Hall; now right|].
    exists (x :: ms). cbn [build_messages]. rewrite Hx, Hms.
    split; [reflexivity|now constructor].
Qed.

Lemma yields_total (items : list json) :
  (forall m, In m items -> exists c, mk_chunk m = inr c) ->
  exists cs, yields items = (cs, None) /\
             Forall2 (fun m c => mk_chunk m = inr c) items cs.
Proof.
  induction items as [|m items IH]; intros Hall.
  - exists []. split; [reflexivity|constructor].
  - destruct (Hall m (or_introl eq_refl)) as [c Hc].
    destruct IH as (cs & Hcs & Hrel); [intros; apply Hall; now right|].
    exists (c :: cs). cbn [yield_chunks]. rewrite Hc, Hcs.
    split; [reflexivity|now constructor].
Qed.

(** X21.  When the stream ends without error, every node update is an object
    whose messages entry is a list, and the constructors accept every
    message, predict and predict_stream go through the same messages in the
    same order: event by event, node by node, message by message.  predict
    builds one message, and predict_stream yields one chunk, for each of
    them. *)
Theorem predict_and_stream_agree (events : list (list (string * json))) :
  Forall (fun event =>
            Forall (fun node_data =>
                      exists fields items,
                        node_data = JDict fields /\
                        assoc "messages" fields = Some (JList items))
                   (map snd event))
         events ->
  (forall m, In m (all_messages events) -> exists x, mk_message m = inr x) ->
  (forall m, In m (all_messages events) -> exists c, mk_chunk m = inr c) ->
  exists messages chunks,
    p_events events None = inr messages /\
    s_events events None = (chunks, None) /\
    Forall2 (fun m x => mk_message m = inr x) (all_messages events) messages /\
    Forall2 (fun m c => mk_chunk m = inr c) (all_messages events) chunks.
Proof.
  assert (Hevent : forall values,
             Forall (fun node_data =>
                       exists fields items,
                         node_data = JDict fields /\
                         assoc "messages" fields = Some (JList items)) values ->
             (forall m, In m (flat_map update_messages values) ->
                        exists x, mk_message m = inr x) ->
             (forall m, In m (flat_map update_messages values) ->
                        exists c, mk_chunk m = inr c) ->
             exists ms cs,
               p_event values = inr ms /\
               s_event values = (cs, None) /\
               Forall2 (fun m x => mk_message m = inr x)
                       (flat_map update_messages values) ms /\
               Forall2 (fun m c => mk_chunk m = inr c)
                       (flat_map update_messages values) cs).
  { induction values as [|nd values IH]; intros Hwf Hmsg Hchunk.
    - exists [], []. repeat split; constructor.
    - inversion Hwf as [|? ? (fields & items & -> & Hitems) Hwf']; subst.
      cbn [flat_map update_messages] in Hmsg, Hchunk |- *.
      rewrite Hitems in Hmsg, Hchunk |- *.
      destruct (build_total items) as (ms & Hms & Hrel);
        [intros; apply Hmsg, in_or_app; now left|].
      destruct (yields_total items) as (cs & Hcs & Hrelc);
        [intros; apply Hchunk, in_or_app; now left|].
      destruct IH as (ms' & cs' & Hp & Hs & Hrel' & Hrelc');
        [assumption
        |intros; apply Hmsg, in_or_app; now right
        |intros; apply Hchunk, in_or_app; now right|].
      exists (ms ++ ms')%list, (cs ++ cs')%list.
      cbn [predict_event stream_event py_get getitem_messages].
      rewrite Hitems. cbn [py_iter]. rewrite Hms, Hcs, Hp, Hs.
      repeat split; try reflexivity; now apply Forall2_app. }
  induction events as [|event events IH]; intros Hwf Hmsg Hchunk.
  - exists [], []. repeat split; constructor.
  - inversion Hwf as [|? ? Hev Hwf']; subst.
    unfold all_messages in Hmsg, Hchunk |- *. cbn [flat_map] in Hmsg, Hchunk |- *.
    destruct (Hevent (map snd event)) as (ms & cs & Hp & Hs & Hrel & Hrelc);
      [assumption
      |intros; apply Hmsg, in_or_app; now left
      |intros; apply Hchunk, in_or_app; now left|].
    destruct IH as (ms' & cs' & Hp' & Hs' & Hrel' & Hrelc');
      [assumption
      |intros; apply Hmsg, in_or_app; now right
      |intros; apply Hchunk, in_or_app; now right|].
    exists (ms ++ ms')%list, (cs ++ cs')%list.
    cbn [predict_events predict_stream]. rewrite Hp, Hs, Hp', Hs'.
    repeat split; try reflexivity; now apply Forall2_app.
Qed.

(** X22.  A node update that is an object without a messages entry is where
    the two differ: predict reads it as an update with no message and goes
    on, predict_stream raises KeyError there, after the chunks of the updates
    before it in the event have been yielded. *)
Theorem update_without_messages (before after : list json)
        (fields : list (string * json)) :
  assoc "messages" fields = None ->
  p_event (before ++ JDict fields :: after) = p_event (before ++ after) /\
  (forall chunks,
      s_event before = (chunks, None) ->
      s_event (before ++ JDict fields :: after) =
      (chunks, Some (KeyError "'messages'"))).
Proof.
  intros Hnone. split.
  - induction before as [|nd before IH]; cbn [app predict_event].
    + cbn [py_get]. rewrite Hnone. cbn [py_iter build_messages].
      destruct (p_event after); reflexivity.
    + now rewrite IH.
  - induction before as [|nd before IH]; intros chunks Hbefore.
    + cbn in Hbefore. injection Hbefore as <-.
      cbn [app stream_event getitem_messages]. now rewrite Hnone.
    + cbn [app stream_event] in Hbefore |- *.
      destruct (getitem_messages subscript_error nd) as [e|v]; [discriminate|].
      destruct (py_iter v) as [e|items]; [discriminate|].
      destruct (yields items) as [cs [e|]]; [discriminate|].
      destruct (s_event before) as [more [e|]] eqn:Hmore; [discriminate|].
      injection Hbefore as <-.
      now rewrite (IH more eq_refl).
Qed.

End AgentProperties.

(** * The further theorems on the scripted collaborators *)

Lemma trigger_request_contents_witness :
  exists rest,
    trace (fst (trigger_databricks_flow
                  "123456789" (Some "{'env': 'dev'}") (Some "['--verbose']")
                  None None None None (Some "token-1") (initial healthy))) =
    ([] ++
     EvClient ::
     decode_event (Some "{'env': 'dev'}") ++
     decode_event (Some "['--verbose']") ++
     decode_event None ++ decode_event None ++
     decode_event None ++ decode_event None ++
     EvRunNow (mkRunNow 123456789 (Some (JDict [("env", JStr "dev")]))
                        (Some (JList [JStr "--verbose"])) None None None None
                        (Some "token-1")) :: rest)%list /\
    (rest = [] \/ exists rid, rest = [EvGetRun rid]).
Proof.
  apply (trigger_request_contents (P := mock_platform)
           "123456789" (Some "{'env': 'dev'}") (Some "['--verbose']")
           None None None None (Some "token-1") (initial healthy) healthy
           123456789);
    vm_compute; reflexivity.
Defined.

Lemma trigger_client_failure_raises_witness :
  trigger_databricks_flow "123456789" None None None None None None None
                          (initial unauthenticated) =
  (mkWorld unauthenticated [EvClient],
   inl (ValueError "default auth: cannot configure default credentials")).
Proof.
  apply (trigger_client_failure_raises (P := mock_platform)
           "123456789" None None None None None None None
           (initial unauthenticated) unauthenticated);
    vm_compute; reflexivity.
Defined.


Lemma trigger_answered_calls_report_failure_witness :
  trigger_result "123456789" None None None None None None None
                 (initial (reporting None)) =
  (mkWorld (reporting None)
           ([EvClient] ++
            [EvRunNow (run_now_request
                         123456789 (None, None, None, None, None, None) None);
             EvGetRun 555]),
   inr (error_result "123456789" (KeyError "'number_in_job'"))) /\
  py_get (error_result "123456789" (KeyError "'number_in_job'"))
         "error_type" JNull = inr (JStr "KeyError") /\
  py_get (error_result "123456789" (KeyError "'number_in_job'"))
         "run_id" JNull = inr JNull.
Proof.
  apply (trigger_answered_calls_report_failure (P := mock_platform)
           "123456789" None None None None None None None
           (initial (reporting None)) (mkWorld (reporting None) [EvClient])
           (None, None, None, None, None, None) 123456789
           (reporting None) (reporting None) (mkRunNowResponse 555 1)
           (mkRun None (Some "https://host/#job/123456789/run/555") None));
    vm_compute; reflexivity.
Defined.

Lemma trigger_never_reports_success_witness :
  exists e,
    error_result "123456789" number_in_job_missing =
    error_result "123456789" e /\
    py_get (error_result "123456789" number_in_job_missing) "success" JNull =
    inr (JBool false).
Proof.
  apply (trigger_never_reports_success (P := mock_platform)
           "123456789" (Some "{'env': 'dev'}") None None None None None None
           (initial healthy) started_world
           (error_result "123456789" number_in_job_missing)).
  vm_compute; reflexivity.
Defined.

Lemma monitor_returns_first_terminal_witness :
  monitor 2 (JInt 555) 1 5 (initial healthy) =
  Some (mkWorld (answering [text_terminated])
                ([] ++
                 (polling_trace (JInt 555) 1
                                [(text_running, answering [text_terminated])] ++
                  [EvSqlStatus (JInt 555); EvLoads text_terminated])),
        inr (Some status_terminated)) /\
  List.length
    (status_queries
       (polling_trace (JInt 555) 1 [(text_running, answering [text_terminated])]
        ++ [EvSqlStatus (JInt 555); EvLoads text_terminated])) = 2%nat /\
  List.length
    (sleeps
       (polling_trace (JInt 555) 1 [(text_running, answering [text_terminated])]
        ++ [EvSqlStatus (JInt 555); EvLoads text_terminated])) = 1%nat /\
  (forall ev,
      In ev (sleeps
               (polling_trace (JInt 555) 1
                              [(text_running, answering [text_terminated])]
                ++ [EvSqlStatus (JInt 555); EvLoads text_terminated])) ->
      ev = EvSleep 1).
Proof.
  apply (monitor_returns_first_terminal (P := mock_platform)
           (JInt 555) 1 5 (initial healthy)
           [(text_running, answering [text_terminated])]
           (answering [text_terminated]) text_terminated status_terminated
           "TERMINATED" 2).
  - lia.
  - cbn [keeps_polling]. split; [vm_compute; reflexivity|]. split; [|exact I].
    eexists. split; vm_compute; reflexivity.
  - vm_compute; reflexivity.
  - vm_compute; reflexivity.
  - vm_compute; reflexivity.
  - do 3 eexists. repeat split; vm_compute; reflexivity.
  - left; reflexivity.
  - cbn; lia.
Defined.

Lemma monitor_query_exception_propagates_witness :
  monitor 3 (JInt 555) 1 5 (initial (answering [text_running; "oops"])) =
  Some (mkWorld (answering ["oops"])
                ([] ++
                 polling_trace (JInt 555) 1 [(text_running, answering ["oops"])]
                 ++ [EvSqlStatus (JInt 555); EvLoads "oops"]),
        inl (JSONDecodeError "Expecting value: line 1 column 1 (char 0)")).
Proof.
  apply (proj2 (monitor_query_exception_propagates (P := mock_platform)
                  (JInt 555) 1 5 (initial (answering [text_running; "oops"]))
                  [(text_running, answering ["oops"])] 3
                  ltac:(lia)
                  ltac:(cbn [keeps_polling];
                        split; [vm_compute; reflexivity|];
                        split; [|exact I];
                        eexists; split; vm_compute; reflexivity)
                  ltac:(vm_compute; reflexivity)
                  ltac:(cbn; lia)));
    vm_compute; reflexivity.
Defined.

Lemma monitor_negative_interval_witness :
  monitor 1 (JInt 555) (-1) 5 (initial healthy) =
  Some (mkWorld (answering [text_terminated])
                ([] ++ [EvSqlStatus (JInt 555); EvLoads text_running]),
        inl (ValueError "sleep length must be non-negative")).
Proof.
  apply (monitor_negative_interval (P := mock_platform)
           (JInt 555) (-1) 5 (initial healthy) (answering [text_terminated])
           text_running
           (JDict [("success", JBool true);
                   ("state", JDict [("life_cycle_state", JStr "RUNNING")])])
           0);
    try lia; vm_compute; reflexivity.
Defined.

Lemma monitor_zero_interval_runs_forever_witness :
  monitor 1000 (JInt 555) 0 5 (initial (answering [text_running])) = None.
Proof.
  refine (monitor_zero_interval_runs_forever (P := mock_platform)
            (fun b => b = answering [text_running])
            (JInt 555) 5 (initial (answering [text_running])) _ _ _ 1000%nat).
  - lia.
  - reflexivity.
  - intros b ->.
    exists (answering [text_running]), text_running,
      (JDict [("success", JBool true);
              ("state", JDict [("life_cycle_state", JStr "RUNNING")])]).
    repeat split; vm_compute; reflexivity.
Defined.

Lemma trigger_failure_skips_monitor_witness :
  trigger_and_monitor_job 0 "999999999" None 30 3600 (initial trigger_failing) =
  Some (mkWorld trigger_failing
                ([] ++ [EvSqlTrigger "999999999" None; EvLoads text_failed]),
        inr None).
Proof.
  apply (trigger_failure_skips_monitor (P := mock_platform)
           0 "999999999" None 30 3600 (initial trigger_failing)
           trigger_failing text_failed [("success", JBool false)]);
    vm_compute; reflexivity.
Defined.

Lemma trigger_success_monitors_run_witness :
  trigger_and_monitor_job 2 "123456789" (Some (JDict [("env", JStr "dev")]))
                          1 5 (initial healthy) =
  monitor 2 (JInt 555) 1 5
          (mkWorld healthy
                   ([] ++ [EvSqlTrigger "123456789" (Some "{'env':'dev',}");
                           EvLoads text_triggered])) /\
  (forall w' r,
      trigger_and_monitor_job 2 "123456789" (Some (JDict [("env", JStr "dev")]))
                              1 5 (initial healthy) = Some (w', r) ->
      forall ev, In ev (status_queries (trace w')) ->
                 In ev (status_queries (trace (initial healthy))) \/
                 ev = EvSqlStatus (JInt 555)).
Proof.
  apply (trigger_success_monitors_run (P := mock_platform)
           2 "123456789" (Some (JDict [("env", JStr "dev")])) 1 5
           (initial healthy) healthy text_triggered
           [("success", JBool true); ("run_id", JInt 555)]);
    vm_compute; reflexivity.
Defined.

Lemma create_function_never_raises_witness :
  create_trigger_flow_function
    (list StatementState) script_client script_execute_refused
    script_get_statement script_functions_get short_body 0 "main" "default"
    (mkWorld ([SUCCEEDED], []) []) =
  Some (mkWorld ([SUCCEEDED],
                 [RegClient;
                  RegExecute (short_body "main.default.trigger_databricks_flow")
                             "main" "default"])
                [],
        inr None) /\
  script_create 0 [] =
  Some (mkWorld ([],
                 [RegClient;
                  RegExecute (short_body "main.default.trigger_databricks_flow")
                             "main" "default";
                  RegGetStatement "stmt-1"])
                [],
        inr None) /\
  script_create 1 [RUNNING; FAILED] =
  Some (mkWorld ([FAILED],
                 [RegClient;
                  RegExecute (short_body "main.default.trigger_databricks_flow")
                             "main" "default";
                  RegGetStatement "stmt-1";
                  RegSleep 1; RegGetStatement "stmt-1"])
                [],
        inr None) /\
  create_trigger_flow_function
    (list StatementState) script_client script_execute
    script_get_statement script_functions_get_missing short_body 0
    "main" "default" (mkWorld ([SUCCEEDED], []) []) =
  Some (mkWorld ([SUCCEEDED],
                 [RegClient;
                  RegExecute (short_body "main.default.trigger_databricks_flow")
                             "main" "default";
                  RegGetStatement "stmt-1";
                  RegFunctionsGet "main.default.trigger_databricks_flow"])
                [],
        inr None).
Proof.
  split; [|split; [|split]].
  - exact (proj1 (proj2 (create_function_never_raises
                           (list StatementState) script_client
                           script_execute_refused script_get_statement
                           script_functions_get short_body
                           "main" "default" (mkWorld ([SUCCEEDED], []) [])
                           [SUCCEEDED] eq_refl))
                 0%nat [SUCCEEDED]
                 (mkExn "PermissionDenied" "not allowed to use the warehouse")
                 eq_refl).
  - exact (proj1 (proj2 (proj2 (create_function_never_raises
                                  (list StatementState) script_client
                                  script_execute script_get_statement
                                  script_functions_get short_body
                                  "main" "default" (mkWorld ([], []) [])
                                  [] eq_refl))
                        0%nat [] (mkStatement "stmt-1" PENDING EmptyString)
                        [] [] eq_refl I (le_n 0))
                 (mkExn "NotFound" "statement not found") eq_refl).
  - exact (proj1 (proj2 (proj2 (proj2 (create_function_never_raises
                                  (list StatementState) script_client
                                  script_execute script_get_statement
                                  script_functions_get short_body
                                  "main" "default"
                                  (mkWorld ([RUNNING; FAILED], []) [])
                                  [RUNNING; FAILED] eq_refl))
                        1%nat [RUNNING; FAILED]
                        (mkStatement "stmt-1" PENDING EmptyString)
                        [(mkStatement "stmt-1" RUNNING EmptyString, [FAILED])]
                        [FAILED] eq_refl (conj eq_refl (conj eq_refl I))
                        (le_n 1)))
                 (mkStatement "stmt-1" FAILED EmptyString)
                 eq_refl eq_refl eq_refl).
  - exact (proj2 (proj2 (proj2 (proj2 (create_function_never_raises
                                  (list StatementState) script_client
                                  script_execute script_get_statement
                                  script_functions_get_missing short_body
                                  "main" "default"
                                  (mkWorld ([SUCCEEDED], []) [])
                                  [SUCCEEDED] eq_refl))
                        0%nat [SUCCEEDED]
                        (mkStatement "stmt-1" PENDING EmptyString)
                        [] [SUCCEEDED] eq_refl I (le_n 0)))
                 (mkStatement "stmt-1" SUCCEEDED EmptyString) [SUCCEEDED]
                 (inl (mkExn "NotFound"
                             "Function 'main.default.trigger_databricks_flow' does not exist."))
                 eq_refl eq_refl eq_refl).
Defined.

Lemma create_function_waits_witness :
  script_create 1 [RUNNING; FAILED] =
  Some (mkWorld ([FAILED],
                 [RegClient;
                  RegExecute (short_body "main.default.trigger_databricks_flow")
                             "main" "default";
                  RegGetStatement "stmt-1";
                  RegSleep 1; RegGetStatement "stmt-1"])
                [],
        inr None) /\
  script_create 1 [RUNNING; SUCCEEDED] =
  Some (mkWorld ([SUCCEEDED],
                 [RegClient;
                  RegExecute (short_body "main.default.trigger_databricks_flow")
                             "main" "default";
                  RegGetStatement "stmt-1";
                  RegSleep 1; RegGetStatement "stmt-1";
                  RegFunctionsGet "main.default.trigger_databricks_flow"])
                [],
        inr (Some (registered "main.default.trigger_databricks_flow"))).
Proof.
  split.
  - apply (proj1 (create_function_waits
                    (list StatementState) script_client script_execute
                    script_get_statement script_functions_get short_body
                    1 "main" "default" (mkWorld ([RUNNING; FAILED], []) [])
                    [RUNNING; FAILED] [RUNNING; FAILED] [FAILED]
                    (mkStatement "stmt-1" PENDING EmptyString)
                    (mkStatement "stmt-1" FAILED EmptyString)
                    [(mkStatement "stmt-1" RUNNING EmptyString, [FAILED])]
                    eq_refl eq_refl
                    (conj eq_refl (conj eq_refl I))
                    eq_refl eq_refl (le_n 1))).
    reflexivity.
  - apply (proj2 (create_function_waits
                    (list StatementState) script_client script_execute
                    script_get_statement script_functions_get short_body
                    1 "main" "default" (mkWorld ([RUNNING; SUCCEEDED], []) [])
                    [RUNNING; SUCCEEDED] [RUNNING; SUCCEEDED] [SUCCEEDED]
                    (mkStatement "stmt-1" PENDING EmptyString)
                    (mkStatement "stmt-1" SUCCEEDED EmptyString)
                    [(mkStatement "stmt-1" RUNNING EmptyString, [SUCCEEDED])]
                    eq_refl eq_refl
                    (conj eq_refl (conj eq_refl I))
                    eq_refl eq_refl (le_n 1))).
    reflexivity.
Defined.

Lemma create_function_waits_forever_witness :
  script_create 1000 [PENDING] = None.
Proof.
  refine (create_function_waits_forever
            (list StatementState) script_client script_execute
            script_get_statement script_functions_get short_body
            (fun b _ => b = [PENDING])
            "main" "default" (mkWorld ([PENDING], []) [])
            [PENDING] [PENDING] (mkStatement "stmt-1" PENDING EmptyString)
            eq_refl eq_refl eq_refl _ 1000%nat).
  intros b id ->. exists [PENDING], (mkStatement id PENDING EmptyString).
  repeat split.
Defined.

Lemma predict_and_stream_agree_witness :
  exists messages chunks,
    predict_events json accept two_updates None = inr messages /\
    predict_stream json accept not_subscriptable two_updates None =
    (chunks, None) /\
    Forall2 (fun m x => accept m = inr x) (all_messages two_updates) messages /\
    Forall2 (fun m c => accept m = inr c) (all_messages two_updates) chunks.
Proof.
  apply (predict_and_stream_agree json json accept accept not_subscriptable
                                  two_updates).
  - repeat constructor; do 2 eexists; split; reflexivity.
  - intros m _. exists m. reflexivity.
  - intros m _. exists m. reflexivity.
Defined.

Lemma update_without_messages_witness :
  predict_event json accept
                ([JDict [("messages", JList [message_a])]] ++
                 JDict [] :: [JDict [("messages", JList [message_b])]]) =
  predict_event json accept
                ([JDict [("messages", JList [message_a])]] ++
                 [JDict [("messages", JList [message_b])]]) /\
  (forall chunks,
      stream_event json accept not_subscriptable
                   [JDict [("messages", JList [message_a])]] = (chunks, None) ->
      stream_event json accept not_subscriptable
                   ([JDict [("messages", JList [message_a])]] ++
                    JDict [] :: [JDict [("messages", JList [message_b])]]) =
      (chunks, Some (KeyError "'messages'"))).
Proof.
  apply (update_without_messages json json accept accept not_subscriptable
                                 [JDict [("messages", JList [message_a])]]
                                 [JDict [("messages", JList [message_b])]] []).
  reflexivity.
Defined.
